(** * gha-runner: provider request shaping, bootstrap templating and the
      runner registry client

    A shallow embedding of [src/gha_runner/interface.py],
    [src/gha_runner/clouddeployment.py] and [src/gha_runner/gh.py].

    Conventions.
    - A Python [str] is a Rocq [string]; a template is read as its UTF-8
      bytes, which is faithful for [string.Template] because its pattern only
      looks at ASCII characters.
    - A Python [dict] with string keys is a [gmap string _].
    - A Python exception is a record of its class and of [str(e)]; a call that
      may raise returns a [result].
    - Calls that leave the process (boto3, requests, PyGithub) are requests
      appended to a trace and answered by an environment, see [prog]. *)

From Stdlib Require Import ZArith Ascii String List.
From stdpp Require Import gmap strings list fin_maps pretty.

Local Open Scope string_scope.
Local Open Scope list_scope.

(** ** Python values and exceptions *)

#[warnings="-register-all"]
Inductive pyval : Type :=
  | VNone
  | VBool (b : bool)
  | VInt (z : Z)
  | VStr (s : string)
  | VList (l : list pyval)
  | VDict (d : list (string * pyval)).

(** The exception classes the three modules raise or catch.  All of them are
    subclasses of Python's [Exception]. *)
Inductive exc_class : Type :=
  | Exception
  | RuntimeError
  | KeyError
  | ValueError
  | TypeError
  | ConnectionError
  | JSONDecodeError
  | WaiterError
  | ClientError
  | GithubException
  | TokenRetrievalError
  | MissingRunnerLabel.

#[global] Instance exc_class_eq_dec : EqDecision exc_class.
Proof. solve_decision. Defined.

(** [exc_str] is what [str(e)] and the f-string [{e}] print. *)
Record exception : Type := mk_exception {
  exc_type : exc_class;
  exc_str : string
}.

Inductive result (A : Type) : Type :=
  | Ok (a : A)
  | Raise (e : exception).

Arguments Ok {A} a.
Arguments Raise {A} e.

Definition is_ok {A} (r : result A) : bool :=
  match r with Ok _ => true | Raise _ => false end.

(** [try: ... except Exception as e: raise wrap(e)] *)
Definition try_except {A} (r : result A) (handler : exception -> exception)
  : result A :=
  match r with
  | Ok a => Ok a
  | Raise e => Raise (handler e)
  end.

(** [repr] of a string made of identifier characters, as [KeyError] prints
    its key. *)
Definition repr_key (k : string) : string := "'" +:+ k +:+ "'".

(** ** [string.Template]

    [Template.pattern], for the default delimiter and identifier pattern, is
    the delimiter followed by one of four alternatives, tried in this order:
    - [escaped]: a second delimiter;
    - [named]: an identifier, a letter or underscore followed by as many
      letters, digits and underscores as there are;
    - [braced]: an identifier between curly braces;
    - [invalid]: the empty string.
    It is compiled with [re.IGNORECASE], and the identifier is ASCII only. *)
Module Template.

Definition is_digit (c : ascii) : bool :=
  let n := nat_of_ascii c in (48 <=? n)%nat && (n <=? 57)%nat.

Definition is_id_start (c : ascii) : bool :=
  let n := nat_of_ascii c in
  (n =? 95)%nat
  || ((97 <=? n)%nat && (n <=? 122)%nat)
  || ((65 <=? n)%nat && (n <=? 90)%nat).

Definition is_id_char (c : ascii) : bool := is_id_start c || is_digit c.

(** The longest prefix of identifier characters (the star is greedy). *)
Fixpoint take_id_chars (s : string) : string :=
  match s with
  | String c rest => if is_id_char c then String c (take_id_chars rest) else ""
  | EmptyString => ""
  end.

(** An identifier at the head of [s]. *)
Definition match_id (s : string) : option string :=
  match s with
  | String c rest =>
      if is_id_start c then Some (String c (take_id_chars rest)) else None
  | EmptyString => None
  end.

Fixpoint drop (n : nat) (s : string) : string :=
  match n, s with
  | S k, String _ rest => drop k rest
  | _, _ => s
  end.

(** The group a match of the pattern binds.  [Invalid i] records
    [mo.start('invalid')]. *)
Inductive group : Type :=
  | Escaped
  | Named (id : string)
  | Braced (id : string)
  | Invalid (i : nat).

(** The alternatives of the pattern, tried in order on the text after a
    delimiter found at index [i - 1]; the second component is the number of
    characters the match takes after the delimiter. *)
Definition match_after_delimiter (i : nat) (rest : string) : group * nat :=
  match rest with
  | String "$" _ => (Escaped, 1)
  | _ =>
      match match_id rest with
      | Some id => (Named id, String.length id)
      | None =>
          match rest with
          | String "{" inner =>
              match match_id inner with
              | Some id =>
                  match drop (String.length id) inner with
                  | String "}" _ => (Braced id, S (S (String.length id)))
                  | _ => (Invalid i, 0)
                  end
              | None => (Invalid i, 0)
              end
          | _ => (Invalid i, 0)
          end
      end
  end.

(** What [pattern.sub] walks over: the text between matches, character by
    character, and the matches. *)
Inductive piece : Type :=
  | Text (c : ascii)
  | Match (g : group).

(** [pattern.finditer], with the text in between kept.  [i] is the index of
    the head of [s] in the template and [skip] the number of characters
    still belonging to the previous match. *)
Fixpoint scan (i skip : nat) (s : string) : list piece :=
  match s with
  | EmptyString => []
  | String c rest =>
      match skip with
      | S k => scan (S i) k rest
      | O =>
          if Ascii.eqb c "$" then
            let '(g, n) := match_after_delimiter (S i) rest in
            Match g :: scan (S i) n rest
          else Text c :: scan (S i) 0 rest
      end
  end.

Definition pieces (template : string) : list piece := scan 0 0 template.

(** [Template.get_identifiers] (with repetitions). *)
Definition identifiers_of (ps : list piece) : list string :=
  omap (fun p => match p with
                 | Match (Named id) | Match (Braced id) => Some id
                 | _ => None
                 end) ps.

Definition get_identifiers (template : string) : list string :=
  identifiers_of (pieces template).

(** The ASCII line boundaries of [str.splitlines] that a file read in text
    mode can hold (carriage returns are translated to line feeds on
    reading): line feed, vertical tab, form feed and the file, group and
    record separators. *)
Definition is_line_boundary (c : ascii) : bool :=
  let n := nat_of_ascii c in
  (n =? 10)%nat || (n =? 11)%nat || (n =? 12)%nat
  || (n =? 28)%nat || (n =? 29)%nat || (n =? 30)%nat.

(** Line and column of [Template._invalid]: [template[:i]] is cut into
    lines, [lineno] is the number of lines and [colno] the length of the
    last one.  The column counts bytes, which are the characters of an ASCII
    template. *)
Fixpoint lineno_colno (n : nat) (s : string) (line col : nat) : nat * nat :=
  match n, s with
  | S k, String c rest =>
      if is_line_boundary c then lineno_colno k rest (S line) 0
      else lineno_colno k rest line (S col)
  | _, _ => (line, col)
  end.

Definition invalid_error (template : string) (i : nat) : exception :=
  let '(lineno, colno) := lineno_colno i template 1 0 in
  mk_exception ValueError
    ("Invalid placeholder in string: line " +:+ pretty lineno
     +:+ ", col " +:+ pretty colno).

(** The callback [convert] of [Template.substitute]. *)
Definition convert (template : string) (mapping : gmap string string)
    (g : group) : result string :=
  match g with
  | Named id | Braced id =>
      match mapping !! id with
      | Some v => Ok v
      | None => Raise (mk_exception KeyError (repr_key id))
      end
  | Escaped => Ok "$"
  | Invalid i => Raise (invalid_error template i)
  end.

(** [pattern.sub(convert, template)]: the first callback that raises, from
    the left, ends the substitution. *)
Fixpoint sub (template : string) (mapping : gmap string string)
    (ps : list piece) : result string :=
  match ps with
  | [] => Ok ""
  | Text c :: ps' =>
      match sub template mapping ps' with
      | Ok s => Ok (String c s)
      | Raise e => Raise e
      end
  | Match g :: ps' =>
      match convert template mapping g with
      | Ok v =>
          match sub template mapping ps' with
          | Ok s => Ok (v +:+ s)
          | Raise e => Raise e
          end
      | Raise e => Raise e
      end
  end.

Definition substitute (template : string) (kws : gmap string string)
  : result string :=
  sub template kws (pieces template).

End Template.

(** ** Calls that leave the process

    A program is run against the trace of the requests sent so far; it
    returns a value or raises, and extends the trace.  The environment answers
    a request from the trace that precedes it. *)
Section Prog.
Context {Req : Type}.

Definition prog (A : Type) : Type := list Req -> result A * list Req.

Definition ret {A} (a : A) : prog A := fun tr => (Ok a, tr).

Definition raise {A} (e : exception) : prog A := fun tr => (Raise e, tr).

Definition bind {A B} (m : prog A) (k : A -> prog B) : prog B :=
  fun tr =>
    match m tr with
    | (Ok a, tr') => k a tr'
    | (Raise e, tr') => (Raise e, tr')
    end.

(** A pure computation that may raise. *)
Definition lift {A} (r : result A) : prog A := fun tr => (r, tr).

(** Send [r]; [answer] is the environment's reply given the earlier
    requests. *)
Definition request {A} (r : Req) (answer : list Req -> result A) : prog A :=
  fun tr => (answer tr, (tr ++ [r])).

(** [try: m except Exception as e: raise handler(e)] *)
Definition catch {A} (m : prog A) (handler : exception -> exception)
  : prog A :=
  fun tr =>
    match m tr with
    | (Ok a, tr') => (Ok a, tr')
    | (Raise e, tr') => (Raise (handler e), tr')
    end.
End Prog.

Arguments prog Req A : clear implicits.

Notation "x <- m ;; k" := (bind m (fun x => k))
  (at level 100, m at next level, right associativity).
Notation "m ;;; k" := (bind m (fun _ => k))
  (at level 100, right associativity).

(** ** The EC2 client *)

Inductive ec2_request : Type :=
  | RunInstances (region_name : string) (params : gmap string pyval)
  | TerminateInstances (region_name : string) (params : gmap string pyval)
  | WaiterWait (region_name waiter_name : string) (InstanceIds : list string)
      (WaiterConfig : option (gmap string pyval)).

(** An element of [result["Instances"]]. *)
Record instance : Type := { InstanceId : string }.

(** How the cloud answers: [run_instances] with the instances it started,
    the others with nothing, each possibly with an error. *)
Record ec2_env : Type := {
  run_instances_answer :
    list ec2_request -> string -> gmap string pyval -> result (list instance);
  terminate_instances_answer :
    list ec2_request -> string -> gmap string pyval -> result unit;
  waiter_answer :
    list ec2_request -> string -> string -> list string ->
    option (gmap string pyval) -> result unit
}.

Definition run_instances (env : ec2_env) (region : string)
    (params : gmap string pyval) : prog ec2_request (list instance) :=
  request (RunInstances region params)
          (fun tr => run_instances_answer env tr region params).

Definition terminate_instances (env : ec2_env) (region : string)
    (params : gmap string pyval) : prog ec2_request unit :=
  request (TerminateInstances region params)
          (fun tr => terminate_instances_answer env tr region params).

(** [ec2.get_waiter(name).wait(InstanceIds=ids[, WaiterConfig=config])] *)
Definition waiter_wait (env : ec2_env) (region name : string)
    (ids : list string) (config : option (gmap string pyval))
  : prog ec2_request unit :=
  request (WaiterWait region name ids config)
          (fun tr => waiter_answer env tr region name ids config).

(** ** clouddeployment.py *)
Module Clouddeployment.

Record AWS : Type := {
  image_id : string;
  instance_type : string;
  gh_runner_token : string;
  home_dir : string;
  repo : string;
  tags : list pyval;
  region_name : string;
  runner_release : string;
  labels : string;
  subnet_id : string;
  security_group_id : string;
  iam_role : string;
  script : string
}.

(** [template] is the text of [templates/user-script.sh.templ] in the
    package. *)
Definition build_user_data (template : string) (kwargs : gmap string string)
  : result string :=
  try_except (Template.substitute template kwargs)
    (fun e => mk_exception Exception
                ("Error parsing user data template: " +:+ exc_str e)).

Definition build_aws_params (template : string) (self : AWS) (count : Z)
    (user_data_params : gmap string string)
  : result (gmap string pyval) :=
  match build_user_data template user_data_params with
  | Raise e => Raise e
  | Ok user_data =>
      let params : gmap string pyval :=
        <["UserData" := VStr user_data]>
        (<["TagSpecifications" := VList (tags self)]>
        (<["MaxCount" := VInt count]>
        (<["MinCount" := VInt count]>
        (<["InstanceType" := VStr (instance_type self)]>
        (<["ImageId" := VStr (image_id self)]> ∅))))) in
      let params :=
        if decide (subnet_id self ≠ "")
        then <["SubnetId" := VStr (subnet_id self)]> params else params in
      let params :=
        if decide (security_group_id self ≠ "")
        then <["SecurityGroupIds" := VList [VStr (security_group_id self)]]>
               params
        else params in
      let params :=
        if decide (iam_role self ≠ "")
        then <["IamInstanceProfile" := VDict [("Name", VStr (iam_role self))]]>
               params
        else params in
      Ok params
  end.

Definition userDataParams (self : AWS) : gmap string string :=
  <["labels" := labels self]>
  (<["runner_release" := runner_release self]>
  (<["script" := script self]>
  (<["homedir" := home_dir self]>
  (<["repo" := repo self]>
  (<["token" := gh_runner_token self]> ∅))))).

Definition create_instance (env : ec2_env) (template : string) (self : AWS)
    (count : Z) : prog ec2_request (list string) :=
  params <- lift (build_aws_params template self count (userDataParams self)) ;;
  instances <- run_instances env (region_name self) params ;;
  ret (map InstanceId instances).

Definition remove_instances (env : ec2_env) (self : AWS) (ids : list string)
  : prog ec2_request unit :=
  let params : gmap string pyval :=
    <["InstanceIds" := VList (map VStr ids)]> ∅ in
  terminate_instances env (region_name self) params.

Definition wait_until_ready (env : ec2_env) (self : AWS) (ids : list string)
    (kwargs : gmap string pyval) : prog ec2_request unit :=
  if decide (kwargs ≠ ∅)
  then waiter_wait env (region_name self) "instance_running" ids (Some kwargs)
  else waiter_wait env (region_name self) "instance_running" ids None.

Definition wait_until_removed (env : ec2_env) (self : AWS)
    (ids : list string) (kwargs : gmap string pyval)
  : prog ec2_request unit :=
  waiter_wait env (region_name self) "instance_terminated" ids None ;;;
  if decide (kwargs ≠ ∅)
  then waiter_wait env (region_name self) "instance_terminated" ids
         (Some kwargs)
  else waiter_wait env (region_name self) "instance_terminated" ids None.

End Clouddeployment.

(** ** interface.py *)
Module Interface.

Record AWS : Type := {
  image_id : string;
  instance_type : string;
  gh_runner_token : string;
  homedir : string;
  repo : string;
  tags : list pyval;
  region_name : string;
  runnerRelease : string;
  labels : string;
  subnet_id : string;
  security_group_id : string;
  iam_role : string;
  script : string
}.

(** [template] is the text of [templates/user-script.sh.templ] under the
    working directory. *)
Definition build_user_data (template : string) (kwargs : gmap string string)
  : result string :=
  try_except (Template.substitute template kwargs)
    (fun e => mk_exception Exception
                ("Error parsing user data template: " +:+ exc_str e)).

Definition userDataParams (self : AWS) : gmap string string :=
  <["labels" := labels self]>
  (<["runnerRelease" := runnerRelease self]>
  (<["script" := script self]>
  (<["homedir" := homedir self]>
  (<["repo" := repo self]>
  (<["token" := gh_runner_token self]> ∅))))).

Definition create_instance (env : ec2_env) (template : string) (self : AWS)
    (count : Z) : prog ec2_request (list string) :=
  user_data <- lift (build_user_data template (userDataParams self)) ;;
  let params : gmap string pyval :=
    <["UserData" := VStr user_data]>
    (<["TagSpecifications" := VList (tags self)]>
    (<["MaxCount" := VInt count]>
    (<["MinCount" := VInt count]>
    (<["InstanceType" := VStr (instance_type self)]>
    (<["ImageId" := VStr (image_id self)]> ∅))))) in
  let params :=
    if decide (subnet_id self ≠ "")
    then <["SubnetId" := VStr (subnet_id self)]> params else params in
  let params :=
    if decide (security_group_id self ≠ "")
    then <["SecurityGroupIds" := VList [VStr (security_group_id self)]]>
           params
    else params in
  let params :=
    if decide (iam_role self ≠ "")
    then <["IamInstanceProfile" := VDict [("Name", VStr (iam_role self))]]>
           params
    else params in
  instances <- run_instances env (region_name self) params ;;
  ret (map InstanceId instances).

Definition remove_instances (env : ec2_env) (self : AWS) (ids : list string)
  : prog ec2_request unit :=
  let params : gmap string pyval :=
    <["InstanceIds" := VList (map VStr ids)]> ∅ in
  terminate_instances env (region_name self) params.

Definition wait_until_ready (env : ec2_env) (self : AWS) (ids : list string)
    (kwargs : gmap string pyval) : prog ec2_request unit :=
  if decide (kwargs ≠ ∅)
  then waiter_wait env (region_name self) "instance_running" ids (Some kwargs)
  else waiter_wait env (region_name self) "instance_running" ids None.

Definition wait_until_removed (env : ec2_env) (self : AWS)
    (ids : list string) (kwargs : gmap string pyval)
  : prog ec2_request unit :=
  waiter_wait env (region_name self) "instance_terminated" ids None ;;;
  if decide (kwargs ≠ ∅)
  then waiter_wait env (region_name self) "instance_terminated" ids
         (Some kwargs)
  else waiter_wait env (region_name self) "instance_terminated" ids None.

End Interface.

(** ** gh.py *)
Module Gh.

(** A response of [requests]: [resp.ok], [resp.content] and what
    [resp.json()] gives. *)
Record response : Type := {
  ok : bool;
  content : string;
  json : result pyval
}.

(** An element of [runner.labels()]; [label_name l] is [l["name"]]. *)
Record runner_label : Type := { label_name : string }.

(** A [SelfHostedActionsRunner]. *)
Record runner : Type := {
  runner_id : Z;
  runner_name : string;
  labels : list runner_label
}.

(** A [GitReleaseAsset]. *)
Record asset : Type := {
  name : string;
  browser_download_url : string
}.

Inductive gh_request : Type :=
  | Post (url : string) (headers : gmap string string)
      (kwargs : gmap string pyval)
  | GetSelfHostedRunners (repo : string)
  | RemoveSelfHostedRunner (repo : string) (r : runner)
  | GetLatestReleaseAssets (repo : string).

(** How the hosting service and the transport answer. *)
Record github_env : Type := {
  post_answer :
    list gh_request -> string -> gmap string string -> gmap string pyval ->
    result response;
  get_self_hosted_runners_answer :
    list gh_request -> string -> result (list runner);
  remove_self_hosted_runner_answer :
    list gh_request -> string -> runner -> result bool;
  get_assets_answer :
    list gh_request -> string -> result (list asset)
}.

(** [requests.post(url, headers=headers, **kwargs)] *)
Definition requests_post (env : github_env) (url : string)
    (headers : gmap string string) (kwargs : gmap string pyval)
  : prog gh_request response :=
  request (Post url headers kwargs)
          (fun tr => post_answer env tr url headers kwargs).

(** [github.get_repo(repo).get_self_hosted_runners()], iterated. *)
Definition get_self_hosted_runners (env : github_env) (repo : string)
  : prog gh_request (list runner) :=
  request (GetSelfHostedRunners repo)
          (fun tr => get_self_hosted_runners_answer env tr repo).

(** [github.get_repo(repo).remove_self_hosted_runner(runner)] *)
Definition remove_self_hosted_runner (env : github_env) (repo : string)
    (r : runner) : prog gh_request bool :=
  request (RemoveSelfHostedRunner repo r)
          (fun tr => remove_self_hosted_runner_answer env tr repo r).

(** [github.get_repo(repo).get_latest_release().get_assets()], iterated. *)
Definition get_assets (env : github_env) (repo : string)
  : prog gh_request (list asset) :=
  request (GetLatestReleaseAssets repo)
          (fun tr => get_assets_answer env tr repo).

(** [v[k]] *)
Definition getitem (v : pyval) (k : string) : result pyval :=
  match v with
  | VDict d =>
      match list_find (fun kv => fst kv = k) d with
      | Some (_, (_, x)) => Ok x
      | None => Raise (mk_exception KeyError (repr_key k))
      end
  | VList _ =>
      Raise (mk_exception TypeError
               "list indices must be integers or slices, not str")
  | VStr _ =>
      Raise (mk_exception TypeError "string indices must be integers")
  | VInt _ =>
      Raise (mk_exception TypeError "'int' object is not subscriptable")
  | VBool _ =>
      Raise (mk_exception TypeError "'bool' object is not subscriptable")
  | VNone =>
      Raise (mk_exception TypeError "'NoneType' object is not subscriptable")
  end.

(** [repr] of a byte string of printable ASCII characters other than the
    quote and the backslash. *)
Definition repr_bytes (b : string) : string := "b'" +:+ b +:+ "'".

(** [needle in hay] on strings. *)
Fixpoint str_in (needle hay : string) : bool :=
  String.prefix needle hay
  || match hay with
     | String _ rest => str_in needle rest
     | EmptyString => false
     end.

Record GitHubInstance : Type := {
  token : string;
  headers : gmap string string;
  repo : string
}.

Definition BASE_URL : string := "https://api.github.com".

Definition _headers (token : string) (header_kwargs : gmap string string)
  : gmap string string :=
  let headers : gmap string string :=
    <["Accept" := "application/vnd.github+json"]>
    (<["X-Github-Api-Version" := "2022-11-28"]>
    (<["Authorization" := "Bearer " +:+ token]> ∅)) in
  header_kwargs ∪ headers.

Definition __init__ (token repo : string) : GitHubInstance :=
  {| token := token; headers := _headers token ∅; repo := repo |}.

(** [label in [l["name"] for l in r.labels()]] *)
Definition has_label (label : string) (r : runner) : Prop :=
  label ∈ map label_name (labels r).

#[global] Instance has_label_dec label r : Decision (has_label label r).
Proof. unfold has_label. apply _. Defined.

Section Requests.
(** [urllib.parse.urljoin] *)
Variable urljoin : string -> string -> string.
Variable env : github_env.
Variable self : GitHubInstance.

Definition _do_request
    (func : string -> gmap string string -> gmap string pyval ->
            prog gh_request response)
    (endpoint : string) (kwargs : gmap string pyval)
  : prog gh_request pyval :=
  let endpoint_url := urljoin BASE_URL endpoint in
  resp <- func endpoint_url (headers self) kwargs ;;
  if negb (ok resp)
  then raise (mk_exception RuntimeError
                ("Error in API call for " +:+ endpoint_url +:+ ": "
                 +:+ repr_bytes (content resp)))
  else lift (json resp).

Definition post (endpoint : string) (kwargs : gmap string pyval)
  : prog gh_request pyval :=
  _do_request (requests_post env) endpoint kwargs.

(** The body of the [try] of [create_runner_token]. *)
Definition create_runner_token_try : prog gh_request pyval :=
  res <- post ("repos/" +:+ repo self
               +:+ "/actions/runners/registration-token") ∅ ;;
  lift (getitem res "token").

Definition create_runner_token : prog gh_request pyval :=
  catch create_runner_token_try
    (fun e => mk_exception TokenRetrievalError
                ("Error creating runner token: " +:+ exc_str e)).

(** The body of [for _ in range(count)], [n] iterations left. *)
Fixpoint create_runner_tokens_loop (n : nat) (tokens : list pyval)
  : prog gh_request (list pyval) :=
  match n with
  | O => ret tokens
  | S k =>
      token <- create_runner_token ;;
      create_runner_tokens_loop k (tokens ++ [token])
  end.

Definition create_runner_tokens (count : Z)
  : prog gh_request (list pyval) :=
  create_runner_tokens_loop (Z.to_nat count) [].

Definition get_runner (label : string)
  : prog gh_request (option runner) :=
  runners <- get_self_hosted_runners env (repo self) ;;
  let matched_runners := filter (has_label label) runners in
  ret (match matched_runners with
       | r :: _ => Some r
       | [] => None
       end).

Definition get_runners (label : string)
  : prog gh_request (option (list runner)) :=
  runners <- get_self_hosted_runners env (repo self) ;;
  let matched_runners := filter (has_label label) runners in
  ret (match matched_runners with
       | _ :: _ => Some matched_runners
       | [] => None
       end).

Definition remove_runner (label : string) : prog gh_request unit :=
  runner <- get_runner label ;;
  match runner with
  | Some r =>
      removed <- remove_self_hosted_runner env (repo self) r ;;
      if negb removed
      then raise (mk_exception RuntimeError
                    ("Error removing runner " +:+ label))
      else ret tt
  | None =>
      raise (mk_exception MissingRunnerLabel
               ("Runner " +:+ label +:+ " not found"))
  end.

(** The body of [for runner in runners]. *)
Fixpoint remove_runners_loop (label : string) (runners : list runner)
  : prog gh_request unit :=
  match runners with
  | [] => ret tt
  | r :: rest =>
      removed <- remove_self_hosted_runner env (repo self) r ;;
      if negb removed
      then raise (mk_exception RuntimeError
                    ("Error removing runner " +:+ label))
      else remove_runners_loop label rest
  end.

Definition remove_runners (label : string) : prog gh_request unit :=
  runners <- get_runners label ;;
  match runners with
  | Some rs => remove_runners_loop label rs
  | None =>
      raise (mk_exception MissingRunnerLabel
               ("Runner " +:+ label +:+ " not found"))
  end.

(** The body of [for asset in assets], with the [raise] that follows
    it. *)
Fixpoint get_latest_runner_release_loop (platform architecture : string)
    (assets : list asset) : result string :=
  match assets with
  | [] =>
      Raise (mk_exception RuntimeError
               ("Runner not found for " +:+ platform +:+ " and "
                +:+ architecture))
  | a :: rest =>
      if str_in platform (name a) && str_in architecture (name a)
      then Ok (browser_download_url a)
      else get_latest_runner_release_loop platform architecture rest
  end.

Definition get_latest_runner_release (platform architecture : string)
  : prog gh_request string :=
  let repo := "actions/runner" in
  assets <- get_assets env repo ;;
  lift (get_latest_runner_release_loop platform architecture assets).

End Requests.

(** [generate_random_label] draws from the process-wide generator of
    [random]: [rng] is its state and [randbelow n] is
    [Random._randbelow(n)]. *)
Section Random.
Variable rng : Type.
Variable randbelow : nat -> rng -> nat * rng.

Definition ascii_lowercase : string := "abcdefghijklmnopqrstuvwxyz".
Definition digits : string := "0123456789".

(** [random.choice(seq)]: [seq[randbelow(len(seq))]]. *)
Definition choice (seq : string) (g : rng) : option ascii * rng :=
  let '(i, g') := randbelow (String.length seq) g in
  (String.get i seq, g').

(** ["".join(random.choice(letters) for i in range(n))] *)
Fixpoint join_choices (letters : string) (n : nat) (g : rng)
  : option string * rng :=
  match n with
  | O => (Some "", g)
  | S k =>
      match choice letters g with
      | (Some c, g') =>
          match join_choices letters k g' with
          | (Some s, g'') => (Some (String c s), g'')
          | (None, g'') => (None, g'')
          end
      | (None, g') => (None, g')
      end
  end.

(** [None] stands for the [IndexError] of an index out of range. *)
Definition generate_random_label (g : rng) : option string * rng :=
  let letters := ascii_lowercase +:+ digits in
  match join_choices letters 8 g with
  | (Some result_str, g') => (Some ("runner-" +:+ result_str), g')
  | (None, g') => (None, g')
  end.
End Random.

End Gh.

(** * Specifications

    The vocabulary of the statements below, and the inputs of the examples. *)

Section TemplateVocabulary.
Import Template.

(** [rendered m ps s]: [s] is [ps] with every character kept, every
    escape turned into one delimiter and every placeholder replaced by its
    value in [m].  No rule renders an invalid delimiter or a placeholder
    without a value. *)
Inductive rendered (m : gmap string string) : list piece -> string -> Prop :=
  | rendered_nil : rendered m [] ""
  | rendered_text c ps s :
      rendered m ps s -> rendered m (Text c :: ps) (String c s)
  | rendered_escaped ps s :
      rendered m ps s -> rendered m (Match Escaped :: ps) ("$" +:+ s)
  | rendered_named id v ps s :
      m !! id = Some v ->
      rendered m ps s -> rendered m (Match (Named id) :: ps) (v +:+ s)
  | rendered_braced id v ps s :
      m !! id = Some v ->
      rendered m ps s -> rendered m (Match (Braced id) :: ps) (v +:+ s).

(** The text of the template that a piece stands for. *)
Definition group_source (g : group) : string :=
  match g with
  | Escaped => "$$"
  | Named id => "$" +:+ id
  | Braced id => "${" +:+ id +:+ "}"
  | Invalid _ => "$"
  end.

Definition piece_source (p : piece) : string :=
  match p with
  | Text c => String c ""
  | Match g => group_source g
  end.

Fixpoint source (ps : list piece) : string :=
  match ps with
  | [] => ""
  | p :: ps' => piece_source p +:+ source ps'
  end.

(** The name that the template of [clouddeployment.py] has for a
    placeholder of the template of [interface.py]: [runnerRelease] is
    [runner_release] there, the others keep their name. *)
Definition clouddeployment_placeholder (id : string) : string :=
  if decide (id = "runnerRelease") then "runner_release" else id.

(** A piece of the template of [interface.py] and the piece that stands
    for it in the template of [clouddeployment.py]: the same character, the
    same escape, the same kind of placeholder under the name it has there,
    an ill-formed delimiter for an ill-formed delimiter.  A placeholder of
    [interface.py] is not called [runner_release]. *)
Definition corresponding_piece (p q : piece) : bool :=
  match p, q with
  | Text c, Text d => bool_decide (c = d)
  | Match Escaped, Match Escaped => true
  | Match (Named a), Match (Named b)
  | Match (Braced a), Match (Braced b) =>
      bool_decide (a ≠ "runner_release")
      && bool_decide (b = clouddeployment_placeholder a)
  | Match (Invalid _), Match (Invalid _) => true
  | _, _ => false
  end.

Fixpoint corresponding_pieces (ps qs : list piece) : bool :=
  match ps, qs with
  | [], [] => true
  | p :: ps', q :: qs' =>
      corresponding_piece p q && corresponding_pieces ps' qs'
  | _, _ => false
  end.

(** The two template files go together: the template of
    [clouddeployment.py] is the template of [interface.py] with the
    placeholder [runnerRelease] written [runner_release]. *)
Definition corresponding_templates
    (interface_template clouddeployment_template : string) : bool :=
  corresponding_pieces (pieces interface_template)
    (pieces clouddeployment_template).

End TemplateVocabulary.

(** [key] is in [params] exactly when [field] is not the empty string, and
    then with [value]. *)
Definition conditional_key (params : gmap string pyval) (key field : string)
    (value : pyval) : Prop :=
  (is_Some (params !! key) <-> field ≠ "")
  /\ (field ≠ "" -> params !! key = Some value)
  /\ (field = "" -> params !! key = None).

Definition optional_keys (params : gmap string pyval)
    (subnet_id security_group_id iam_role : string) : Prop :=
  conditional_key params "SubnetId" subnet_id (VStr subnet_id)
  /\ conditional_key params "SecurityGroupIds" security_group_id
       (VList [VStr security_group_id])
  /\ conditional_key params "IamInstanceProfile" iam_role
       (VDict [("Name", VStr iam_role)]).

Section TokenVocabulary.
Import Gh.

Variable urljoin : string -> string -> string.
Variable env : github_env.
Variable self : GitHubInstance.

Definition registration_token_url : string :=
  urljoin BASE_URL
    ("repos/" +:+ repo self +:+ "/actions/runners/registration-token").

(** The request that mints one token. *)
Definition mint_request : gh_request :=
  Post registration_token_url (headers self) ∅.

Definition token_retrieval_error (cause : exception) : exception :=
  mk_exception TokenRetrievalError
    ("Error creating runner token: " +:+ exc_str cause).

(** What [n] iterations of the loop make of the list [tokens0] and of the
    trace [tr]: [n] more tokens and [n] minting requests, or the wrapped
    error of the first minting that raised, after which nothing is
    sent. *)
Definition tokens_outcome (n : nat) (tokens0 : list pyval)
    (tr : list gh_request) (out : result (list pyval) * list gh_request)
  : Prop :=
  match out with
  | (Ok tokens, tr') =>
      exists new,
        tokens = tokens0 ++ new /\ length new = n
        /\ tr' = tr ++ repeat mint_request n
  | (Raise e, tr') =>
      exists k cause,
        (k < n)%nat
        /\ tr' = tr ++ repeat mint_request (S k)
        /\ fst (create_runner_token_try urljoin env self
                  (tr ++ repeat mint_request k)) = Raise cause
        /\ e = token_retrieval_error cause
  end.

End TokenVocabulary.

(** A character of the class [a-z0-9]. *)
Definition lower_or_digit (c : ascii) : Prop :=
  (97 <= nat_of_ascii c <= 122)%nat \/ (48 <= nat_of_ascii c <= 57)%nat.

(** [needle] occurs in [hay]. *)
Definition contains (needle hay : string) : Prop :=
  exists pre post, hay = pre +:+ needle +:+ post.

Definition asset_matches (platform architecture : string) (a : Gh.asset)
  : Prop :=
  contains platform (Gh.name a) /\ contains architecture (Gh.name a).

Definition not_found_error (platform architecture : string) : exception :=
  mk_exception RuntimeError
    ("Runner not found for " +:+ platform +:+ " and " +:+ architecture).

(** ** Sample inputs *)

(** A cloud that accepts every request. *)
Definition ec2_always_ok : ec2_env := {|
  run_instances_answer := fun _ _ _ => Ok [{| InstanceId := "i-0001" |}];
  terminate_instances_answer := fun _ _ _ => Ok tt;
  waiter_answer := fun _ _ _ _ _ => Ok tt
|}.

Definition sample_interface : Interface.AWS := {|
  Interface.image_id := "ami-0abc";
  Interface.instance_type := "t2.micro";
  Interface.gh_runner_token := "T0K";
  Interface.homedir := "/home/ec2-user";
  Interface.repo := "owner/repo";
  Interface.tags := [];
  Interface.region_name := "us-east-1";
  Interface.runnerRelease := "runner.tar.gz";
  Interface.labels := "runner-abcd1234";
  Interface.subnet_id := "";
  Interface.security_group_id := "sg-1";
  Interface.iam_role := "";
  Interface.script := "echo hi"
|}.

(** The configuration of [clouddeployment.py] with the same values. *)
Definition to_clouddeployment (c : Interface.AWS) : Clouddeployment.AWS := {|
  Clouddeployment.image_id := Interface.image_id c;
  Clouddeployment.instance_type := Interface.instance_type c;
  Clouddeployment.gh_runner_token := Interface.gh_runner_token c;
  Clouddeployment.home_dir := Interface.homedir c;
  Clouddeployment.repo := Interface.repo c;
  Clouddeployment.tags := Interface.tags c;
  Clouddeployment.region_name := Interface.region_name c;
  Clouddeployment.runner_release := Interface.runnerRelease c;
  Clouddeployment.labels := Interface.labels c;
  Clouddeployment.subnet_id := Interface.subnet_id c;
  Clouddeployment.security_group_id := Interface.security_group_id c;
  Clouddeployment.iam_role := Interface.iam_role c;
  Clouddeployment.script := Interface.script c
|}.

Definition sample_kwargs : gmap string string :=
  <["repo" := "owner/repo"]> (<["token" := "T0K"]> ∅).

Definition sample_poll_options : gmap string pyval :=
  <["MaxAttempts" := VInt 5]> ∅.

Definition sample_github : Gh.GitHubInstance :=
  Gh.__init__ "ghp_x" "owner/repo".

Definition runner_a : Gh.runner := {|
  Gh.runner_id := 1; Gh.runner_name := "a";
  Gh.labels := [{| Gh.label_name := "self-hosted" |};
                {| Gh.label_name := "runner-aaaa0000" |}]
|}.

Definition runner_b : Gh.runner := {|
  Gh.runner_id := 2; Gh.runner_name := "b";
  Gh.labels := [{| Gh.label_name := "self-hosted" |};
                {| Gh.label_name := "runner-bbbb1111" |}]
|}.

Definition runner_c : Gh.runner := {|
  Gh.runner_id := 3; Gh.runner_name := "c";
  Gh.labels := [{| Gh.label_name := "runner-bbbb1111" |}]
|}.

Definition sample_assets : list Gh.asset :=
  [{| Gh.name := "actions-runner-osx-x64-2.300.0.tar.gz";
      Gh.browser_download_url := "https://example.org/osx-x64" |};
   {| Gh.name := "actions-runner-linux-x64-2.300.0.tar.gz";
      Gh.browser_download_url := "https://example.org/linux-x64" |};
   {| Gh.name := "actions-runner-linux-x64-2.300.0-noexternals.tar.gz";
      Gh.browser_download_url := "https://example.org/linux-x64-noext" |}].

(** A hosting service with three runners that removes every runner but
    [runner_c], mints the token [AAAA] and answers 404 once two tokens were
    minted. *)
Definition sample_github_env : Gh.github_env := {|
  Gh.post_answer := fun tr _ _ _ =>
    if (length tr <? 2)%nat
    then Ok {| Gh.ok := true; Gh.content := "{}";
               Gh.json := Ok (VDict [("token", VStr "AAAA");
                                     ("expires_at", VStr "2030-01-01")]) |}
    else Ok {| Gh.ok := false; Gh.content := "Not Found";
               Gh.json := Ok (VDict []) |};
  Gh.get_self_hosted_runners_answer := fun _ _ =>
    Ok [runner_a; runner_b; runner_c];
  Gh.remove_self_hosted_runner_answer := fun _ _ r =>
    Ok (negb (Gh.runner_id r =? 3)%Z);
  Gh.get_assets_answer := fun _ _ => Ok sample_assets
|}.

(** [urljoin] on a base without a path and a relative endpoint. *)
Definition sample_urljoin (base endpoint : string) : string :=
  base +:+ "/" +:+ endpoint.

(** A hosting service that answers every POST with 503. *)
Definition unavailable_github_env : Gh.github_env := {|
  Gh.post_answer := fun _ _ _ _ =>
    Ok {| Gh.ok := false; Gh.content := "Service Unavailable";
          Gh.json := Raise (mk_exception JSONDecodeError
                              "Expecting value: line 1 column 1 (char 0)") |};
  Gh.get_self_hosted_runners_answer := fun _ _ => Ok [];
  Gh.remove_self_hosted_runner_answer := fun _ _ _ => Ok false;
  Gh.get_assets_answer := fun _ _ => Ok sample_assets
|}.

(** A generator for the examples: the state is a number, a draw below [n] is
    its remainder by [n]. *)
Definition sample_randbelow (n : nat) (g : nat) : nat * nat :=
  ((g mod n)%nat, (g * 7 + 3)%nat).

(** * Properties *)

(** ** Template substitution *)
Module TemplateFacts.
Import Template.

Lemma sub_rendered template m ps s :
  sub template m ps = Ok s -> rendered m ps s.
Proof.
  revert s. induction ps as [|p ps IH]; intros s H; simpl in H.
  - injection H as <-. constructor.
  - destruct p as [c|g].
    + destruct (sub template m ps) as [s'|e]; [|discriminate].
      injection H as <-. constructor. now apply IH.
    + destruct g as [|id|id|i]; simpl in H.
      * destruct (sub template m ps) as [s'|e]; [|discriminate].
        injection H as <-. constructor. now apply IH.
      * destruct (m !! id) as [v|] eqn:Hid; [|discriminate].
        destruct (sub template m ps) as [s'|e]; [|discriminate].
        injection H as <-. constructor; [assumption|now apply IH].
      * destruct (m !! id) as [v|] eqn:Hid; [|discriminate].
        destruct (sub template m ps) as [s'|e]; [|discriminate].
        injection H as <-. constructor; [assumption|now apply IH].
      * discriminate.
Qed.

Lemma rendered_sub template m ps s :
  rendered m ps s -> sub template m ps = Ok s.
Proof.
  induction 1 as [|c ps s _ IH|ps s _ IH|id v ps s Hid _ IH|id v ps s Hid _ IH];
    simpl; try rewrite Hid; try rewrite IH; reflexivity.
Qed.

(** A placeholder without a value makes the substitution raise. *)
Lemma sub_missing template m ps id :
  id ∈ identifiers_of ps -> m !! id = None ->
  exists e, sub template m ps = Raise e.
Proof.
  unfold identifiers_of. intros Hin Hnone.
  induction ps as [|p ps IH]; simpl in *.
  - inversion Hin.
  - destruct p as [c|g].
    + destruct (sub template m ps) as [s'|e] eqn:Hs; [|eauto].
      destruct (IH Hin) as [e He]. discriminate.
    + assert (Hrest : id ∈ omap
                (fun p => match p with
                          | Match (Named id) | Match (Braced id) => Some id
                          | _ => None
                          end) ps ->
              exists e,
                match sub template m ps with
                | Ok s => Ok (A := string) s
                | Raise e => Raise e
                end = Raise e).
      { intros Hin'. destruct (IH Hin') as [e ->]. eauto. }
      destruct g as [|id'|id'|i]; simpl in *.
      * destruct (Hrest Hin) as [e He].
        destruct (sub template m ps); [discriminate|eauto].
      * apply elem_of_cons in Hin as [<-|Hin].
        { rewrite Hnone. eauto. }
        destruct (m !! id') as [v|]; [|eauto].
        destruct (Hrest Hin) as [e He].
        destruct (sub template m ps); [discriminate|eauto].
      * apply elem_of_cons in Hin as [<-|Hin].
        { rewrite Hnone. eauto. }
        destruct (m !! id') as [v|]; [|eauto].
        destruct (Hrest Hin) as [e He].
        destruct (sub template m ps); [discriminate|eauto].
      * eauto.
Qed.

(** Well-formed delimiters and a value for every placeholder make the
    substitution return. *)
Lemma sub_total template m ps :
  (forall i, Match (Invalid i) ∉ ps) ->
  (forall id, id ∈ identifiers_of ps -> is_Some (m !! id)) ->
  exists s, sub template m ps = Ok s.
Proof.
  unfold identifiers_of.
  induction ps as [|p ps IH]; intros Hvalid Hvalues; simpl in *; [eauto|].
  assert (Hrest : exists s, sub template m ps = Ok s).
  { apply IH.
    - intros i Hin. apply (Hvalid i). by apply list_elem_of_further.
    - intros id Hin. apply Hvalues.
      destruct p as [c|[|id'|id'|i]]; simpl; try done;
        by apply list_elem_of_further. }
  destruct Hrest as [s Hs]. rewrite Hs.
  destruct p as [c|[|id|id|i]]; simpl; eauto.
  - destruct (Hvalues id) as [v ->]; [apply list_elem_of_here|eauto].
  - destruct (Hvalues id) as [v ->]; [apply list_elem_of_here|eauto].
  - destruct (Hvalid i). apply list_elem_of_here.
Qed.

(** The substitution reads the mapping at the placeholders only. *)
Lemma sub_agree template m1 m2 ps :
  (forall id, id ∈ identifiers_of ps -> m1 !! id = m2 !! id) ->
  sub template m1 ps = sub template m2 ps.
Proof.
  unfold identifiers_of.
  induction ps as [|p ps IH]; intros Hagree; simpl in *; [reflexivity|].
  destruct p as [c|g].
  - now rewrite IH.
  - destruct g as [|id|id|i]; simpl in *.
    + now rewrite IH.
    + rewrite <- (Hagree id) by apply list_elem_of_here.
      rewrite IH; [reflexivity|].
      intros id' Hin. apply Hagree. now apply list_elem_of_further.
    + rewrite <- (Hagree id) by apply list_elem_of_here.
      rewrite IH; [reflexivity|].
      intros id' Hin. apply Hagree. now apply list_elem_of_further.
    + reflexivity.
Qed.

Lemma substitute_agree template m1 m2 :
  (forall id, id ∈ get_identifiers template -> m1 !! id = m2 !! id) ->
  substitute template m1 = substitute template m2.
Proof. apply sub_agree. Qed.

(** *** The scanner on examples *)

Example pieces_example :
  pieces "a $token ${repo}x $$ $"
  = [Text "a"; Text " "; Match (Named "token"); Text " ";
     Match (Braced "repo"); Text "x"; Text " "; Match Escaped; Text " ";
     Match (Invalid 22)].
Proof. reflexivity. Qed.

Example substitute_example :
  substitute "a $token ${repo}x $$" sample_kwargs = Ok "a T0K owner/repox $".
Proof. vm_compute. reflexivity. Qed.

Example substitute_invalid_example :
  substitute "a $token ${repo}x $$ $" sample_kwargs
  = Raise (mk_exception ValueError
             "Invalid placeholder in string: line 1, col 22").
Proof. vm_compute. reflexivity. Qed.

Example substitute_unclosed_brace_example :
  substitute ("a $token" +:+ String "010" " ${repo x") sample_kwargs
  = Raise (mk_exception ValueError
             "Invalid placeholder in string: line 2, col 2").
Proof. vm_compute. reflexivity. Qed.

Example substitute_missing_example :
  substitute "a $tokens ${repo}" sample_kwargs
  = Raise (mk_exception KeyError "'tokens'").
Proof. vm_compute. reflexivity. Qed.

(** *** The scanner loses nothing *)

Lemma append_cons (c : ascii) (s t : string) :
  String c s +:+ t = String c (s +:+ t).
Proof. reflexivity. Qed.

Lemma append_nil (t : string) : "" +:+ t = t.
Proof. reflexivity. Qed.

Lemma take_id_chars_drop (s : string) :
  take_id_chars s +:+ drop (String.length (take_id_chars s)) s = s.
Proof.
  induction s as [|c s IH]; [reflexivity|]. simpl.
  destruct (is_id_char c); [|reflexivity].
  simpl. by rewrite append_cons, IH.
Qed.

Lemma take_id_chars_length (s : string) :
  (String.length (take_id_chars s) <= String.length s)%nat.
Proof.
  induction s as [|c s IH]; simpl; [lia|].
  destruct (is_id_char c); simpl; lia.
Qed.

Lemma append_assoc (a b c : string) : (a +:+ b) +:+ c = a +:+ (b +:+ c).
Proof.
  induction a as [|x a IH]; [reflexivity|].
  by rewrite !append_cons, IH.
Qed.

Lemma append_length (a b : string) :
  String.length (a +:+ b) = (String.length a + String.length b)%nat.
Proof.
  induction a as [|x a IH]; [reflexivity|].
  rewrite append_cons. simpl. by rewrite IH.
Qed.

Lemma drop_S_tail (k : nat) : forall (s : string) c tail,
  drop k s = String c tail -> drop (S k) s = tail.
Proof.
  induction k as [|k IH]; intros [|x s] c tail H; simpl in *;
    try discriminate.
  - by injection H as _ ->.
  - by eapply IH.
Qed.

Lemma match_id_spec (s id : string) :
  match_id s = Some id ->
  id +:+ drop (String.length id) s = s
  /\ (0 < String.length id <= String.length s)%nat.
Proof.
  destruct s as [|c s]; simpl; [discriminate|].
  destruct (is_id_start c); [|discriminate].
  intros [= <-]. simpl. rewrite append_cons, take_id_chars_drop.
  pose proof (take_id_chars_length s). split; [reflexivity|lia].
Qed.

(** A match stands for the delimiter and the [n] characters after it. *)
Lemma match_after_delimiter_spec (i : nat) (rest : string) g n :
  match_after_delimiter i rest = (g, n) ->
  (n <= String.length rest)%nat
  /\ group_source g +:+ drop n rest = String "$" rest.
Proof.
  unfold match_after_delimiter.
  assert (Hinvalid : (Invalid i, 0%nat) = (g, n) ->
            (n <= String.length rest)%nat
            /\ group_source g +:+ drop n rest = String "$" rest).
  { intros [= <- <-]. split; [lia|]. by destruct rest. }
  assert (Hid : forall id, match_id rest = Some id ->
            (Named id, String.length id) = (g, n) ->
            (n <= String.length rest)%nat
            /\ group_source g +:+ drop n rest = String "$" rest).
  { intros id Hm [= <- <-]. destruct (match_id_spec rest id Hm) as [Heq Hlen].
    split; [lia|].
    change (group_source (Named id)) with (String "$" id).
    by rewrite append_cons, Heq. }
  assert (Hbraced : forall inner,
            rest = String "{" inner ->
            match match_id inner with
            | Some id =>
                match drop (String.length id) inner with
                | String "}" _ => (Braced id, S (S (String.length id)))
                | _ => (Invalid i, 0%nat)
                end
            | None => (Invalid i, 0%nat)
            end = (g, n) ->
            (n <= String.length rest)%nat
            /\ group_source g +:+ drop n rest = String "$" rest).
  { intros inner -> H.
    destruct (match_id inner) as [id|] eqn:Hm; [|by apply Hinvalid].
    destruct (match_id_spec inner id Hm) as [Heq Hlen].
    destruct (drop (String.length id) inner) as [|c tail] eqn:Hd;
      [by apply Hinvalid|].
    destruct (ascii_dec c "}") as [->|Hc].
    - injection H as <- <-.
      assert (Htail : drop (S (S (String.length id))) (String "{" inner)
                      = tail) by exact (drop_S_tail _ _ _ _ Hd).
      rewrite Htail. split.
      + rewrite <- Heq. simpl. rewrite append_length. simpl. lia.
      + change (group_source (Braced id))
          with (String "$" (String "{" (id +:+ "}"))).
        rewrite !append_cons, append_assoc.
        change ("}" +:+ tail) with (String "}" tail).
        by rewrite Heq.
    - apply Hinvalid. rewrite <- H.
      destruct c as [[] [] [] [] [] [] [] []]; try reflexivity.
      by contradict Hc. }
  destruct rest as [|c rest'].
  - simpl. apply Hinvalid.
  - destruct (ascii_dec c "$") as [->|Hdollar].
    + intros [= <- <-]. split; [simpl; lia|reflexivity].
    + intros H.
      assert (H' : match match_id (String c rest') with
                   | Some id => (Named id, String.length id)
                   | None =>
                       match String c rest' with
                       | String "{" inner =>
                           match match_id inner with
                           | Some id =>
                               match drop (String.length id) inner with
                               | String "}" _ =>
                                   (Braced id, S (S (String.length id)))
                               | _ => (Invalid i, 0%nat)
                               end
                           | None => (Invalid i, 0%nat)
                           end
                       | _ => (Invalid i, 0%nat)
                       end
                   end = (g, n)).
      { rewrite <- H.
        destruct c as [[] [] [] [] [] [] [] []]; try reflexivity.
        by contradict Hdollar. }
      clear H.
      destruct (match_id (String c rest')) as [id|] eqn:Hm;
        [by apply (Hid id)|].
      destruct (ascii_dec c "{") as [->|Hbrace].
      * by apply (Hbraced rest').
      * apply Hinvalid. rewrite <- H'.
        destruct c as [[] [] [] [] [] [] [] []]; try reflexivity.
        by contradict Hbrace.
Qed.

Lemma scan_source (s : string) : forall i skip,
  (skip <= String.length s)%nat -> source (scan i skip s) = drop skip s.
Proof.
  induction s as [|c s IH]; intros i skip Hskip; simpl.
  - by destruct skip.
  - destruct skip as [|k].
    + destruct (Ascii.eqb c "$") eqn:Hc.
      * apply Ascii.eqb_eq in Hc as ->.
        destruct (match_after_delimiter (S i) s) as [g n] eqn:Hm.
        destruct (match_after_delimiter_spec (S i) s g n Hm) as [Hn Hsrc].
        simpl. by rewrite IH.
      * simpl. rewrite IH by lia.
        change (String c "" +:+ drop 0 s) with (String c (drop 0 s)).
        by destruct s.
    + simpl in Hskip. apply IH. lia.
Qed.

(** The pieces of a template, put back together, are the template. *)
Lemma pieces_source (template : string) :
  source (pieces template) = template.
Proof.
  unfold pieces. rewrite scan_source by lia. by destruct template.
Qed.

End TemplateFacts.

(** ** Bootstrap-script rendering *)
Section UserData.
Import Template TemplateFacts.

Lemma build_user_data_same (template : string) (kwargs : gmap string string) :
  Interface.build_user_data template kwargs
  = Clouddeployment.build_user_data template kwargs.
Proof. reflexivity. Qed.

Lemma build_user_data_ok (template : string) (kwargs : gmap string string)
    (s : string) :
  Clouddeployment.build_user_data template kwargs = Ok s
  <-> substitute template kwargs = Ok s.
Proof.
  unfold Clouddeployment.build_user_data, try_except.
  destruct (substitute template kwargs); split; congruence.
Qed.

(** C3, as the code has it.  Rendering is a function of the template text
    and of the substitution; the two modules render alike; a script is
    returned exactly when every delimiter of the template is well formed and
    every placeholder has a value, and it is then the template with all of
    them replaced; a placeholder without a value raises the wrapped template
    error; a key of the substitution that the template does not name is
    ignored. *)
Theorem build_user_data_renders (template : string)
    (kwargs : gmap string string) :
  (forall template' kwargs',
      template' = template -> kwargs' = kwargs ->
      Clouddeployment.build_user_data template' kwargs'
      = Clouddeployment.build_user_data template kwargs)
  /\ Interface.build_user_data template kwargs
     = Clouddeployment.build_user_data template kwargs
  /\ (forall s,
         Clouddeployment.build_user_data template kwargs = Ok s
         <-> rendered kwargs (pieces template) s)
  /\ ((forall i, Match (Invalid i) ∉ pieces template) ->
      (forall id, id ∈ get_identifiers template -> is_Some (kwargs !! id)) ->
      exists s, Clouddeployment.build_user_data template kwargs = Ok s)
  /\ (forall id,
         id ∈ get_identifiers template -> kwargs !! id = None ->
         exists cause,
           substitute template kwargs = Raise cause
           /\ Clouddeployment.build_user_data template kwargs
              = Raise (mk_exception Exception
                         ("Error parsing user data template: "
                          +:+ exc_str cause)))
  /\ (forall key value,
         key ∉ get_identifiers template ->
         Clouddeployment.build_user_data template (<[key := value]> kwargs)
         = Clouddeployment.build_user_data template kwargs).
Proof.
  repeat split.
  - intros template' kwargs' -> ->. reflexivity.
  - rewrite build_user_data_ok. apply sub_rendered.
  - rewrite build_user_data_ok. apply rendered_sub.
  - intros Hvalid Hvalues.
    destruct (sub_total template kwargs (pieces template) Hvalid Hvalues)
      as [s Hs].
    exists s. by apply build_user_data_ok.
  - intros id Hin Hnone.
    destruct (sub_missing template kwargs (pieces template) id Hin Hnone)
      as [cause Hcause].
    exists cause. split; [exact Hcause|].
    unfold Clouddeployment.build_user_data, substitute.
    now rewrite Hcause.
  - intros key value Hkey.
    unfold Clouddeployment.build_user_data. f_equal.
    apply substitute_agree. intros id Hid.
    apply lookup_insert_ne. intros ->. contradiction.
Qed.

(** At the template [run $token] with no value for [token], the error is
    the wrapped [KeyError]. *)
Lemma build_user_data_renders_witness :
  exists cause,
    substitute "run $token" ∅ = Raise cause
    /\ Clouddeployment.build_user_data "run $token" ∅
       = Raise (mk_exception Exception
                  ("Error parsing user data template: " +:+ exc_str cause)).
Proof.
  destruct (build_user_data_renders "run $token" ∅)
    as (_ & _ & _ & _ & Hmiss & _).
  apply (Hmiss "token").
  - vm_compute. apply list_elem_of_here.
  - apply lookup_empty.
Defined.

(** C3 as stated fails: a key that the template does not name does not
    make the rendering raise. *)
Lemma build_user_data_extra_key :
  let kwargs : gmap string string :=
    <["extra" := "x"]> (<["token" := "abc"]> ∅) in
  kwargs !! "extra" = Some "x"
  /\ ("extra" ∉ get_identifiers "echo $token")
  /\ Clouddeployment.build_user_data "echo $token" kwargs = Ok "echo abc"
  /\ Interface.build_user_data "echo $token" kwargs = Ok "echo abc".
Proof.
  repeat split; try (vm_compute; reflexivity).
  vm_compute. intros H. apply list_elem_of_singleton in H. discriminate.
Qed.

End UserData.

(** ** The request sent to [run_instances] *)
Section RequestShape.

Lemma conditional_key_intro params key field value :
  params !! key = (if decide (field ≠ "") then Some value else None) ->
  conditional_key params key field value.
Proof.
  unfold conditional_key. intros ->.
  case_decide as Hf; repeat split; intros; done.
Qed.

(** The dictionary both modules build, for the rendered [user_data]. *)
Lemma optional_keys_params (user_data image_id instance_type : string)
    (tags : list pyval) (count : Z)
    (subnet_id security_group_id iam_role : string) :
  let params : gmap string pyval :=
    <["UserData" := VStr user_data]>
    (<["TagSpecifications" := VList tags]>
    (<["MaxCount" := VInt count]>
    (<["MinCount" := VInt count]>
    (<["InstanceType" := VStr instance_type]>
    (<["ImageId" := VStr image_id]> ∅))))) in
  let params :=
    if decide (subnet_id ≠ "")
    then <["SubnetId" := VStr subnet_id]> params else params in
  let params :=
    if decide (security_group_id ≠ "")
    then <["SecurityGroupIds" := VList [VStr security_group_id]]> params
    else params in
  let params :=
    if decide (iam_role ≠ "")
    then <["IamInstanceProfile" := VDict [("Name", VStr iam_role)]]> params
    else params in
  optional_keys params subnet_id security_group_id iam_role.
Proof.
  cbv zeta. unfold optional_keys.
  split; [|split]; apply conditional_key_intro;
    repeat case_decide; by simplify_map_eq.
Qed.

Lemma clouddeployment_params_optional_keys template self count
    user_data_params params :
  Clouddeployment.build_aws_params template self count user_data_params
  = Ok params ->
  optional_keys params (Clouddeployment.subnet_id self)
    (Clouddeployment.security_group_id self) (Clouddeployment.iam_role self).
Proof.
  unfold Clouddeployment.build_aws_params.
  destruct (Clouddeployment.build_user_data _ _) as [user_data|e];
    [|discriminate].
  intros [= <-]. apply optional_keys_params.
Qed.

(** C1.  In the dictionary that [build_aws_params] returns, and in the one
    that either [create_instance] sends to [run_instances] once the
    bootstrap script is rendered, ['SubnetId'], ['SecurityGroupIds'] and
    ['IamInstanceProfile'] are present exactly when [subnet_id],
    [security_group_id] and [iam_role] are not the empty string, with
    [subnet_id], [[security_group_id]] and [{"Name": iam_role}] as values,
    and absent otherwise. *)
Theorem optional_keys_iff_nonempty (template : string) (count : Z) :
  (forall self user_data_params params,
      Clouddeployment.build_aws_params template self count user_data_params
      = Ok params ->
      optional_keys params (Clouddeployment.subnet_id self)
        (Clouddeployment.security_group_id self)
        (Clouddeployment.iam_role self))
  /\ (forall env self tr,
         is_ok (Clouddeployment.build_user_data template
                  (Clouddeployment.userDataParams self)) = true ->
         exists params,
           snd (Clouddeployment.create_instance env template self count tr)
           = (tr ++ [RunInstances (Clouddeployment.region_name self) params])
           /\ optional_keys params (Clouddeployment.subnet_id self)
                (Clouddeployment.security_group_id self)
                (Clouddeployment.iam_role self))
  /\ (forall env self tr,
         is_ok (Interface.build_user_data template
                  (Interface.userDataParams self)) = true ->
         exists params,
           snd (Interface.create_instance env template self count tr)
           = (tr ++ [RunInstances (Interface.region_name self) params])
           /\ optional_keys params (Interface.subnet_id self)
                (Interface.security_group_id self)
                (Interface.iam_role self)).
Proof.
  split; [|split].
  - intros self udp params. apply clouddeployment_params_optional_keys.
  - intros env self tr Hok.
    unfold Clouddeployment.create_instance, bind, lift.
    destruct (Clouddeployment.build_aws_params template self count
                (Clouddeployment.userDataParams self)) as [params|e] eqn:Hp.
    + exists params. split.
      * unfold run_instances, request, ret.
        by destruct (run_instances_answer env tr _ params).
      * by eapply clouddeployment_params_optional_keys.
    + unfold Clouddeployment.build_aws_params in Hp.
      destruct (Clouddeployment.build_user_data _ _); discriminate.
  - intros env self tr Hok.
    unfold Interface.create_instance, bind, lift.
    destruct (Interface.build_user_data template
                (Interface.userDataParams self)) as [user_data|e];
      [|discriminate].
    eexists. split.
    + unfold run_instances, request, ret.
      by destruct (run_instances_answer env tr _ _).
    + apply optional_keys_params.
Qed.

End RequestShape.

Section RequestShapeWitness.

Lemma optional_keys_iff_nonempty_witness :
  exists params,
    snd (Interface.create_instance ec2_always_ok "run $token"
           sample_interface 2 [])
    = [RunInstances "us-east-1" params]
    /\ optional_keys params "" "sg-1" "".
Proof.
  destruct (optional_keys_iff_nonempty "run $token" 2) as (_ & _ & H).
  apply (H ec2_always_ok sample_interface []).
  vm_compute. reflexivity.
Defined.

End RequestShapeWitness.

(** ** Waiting for termination *)
Section Waiters.

(** What [wait_until_removed] sends when the first wait returns: two
    waits, the first one with the default configuration. *)
Lemma wait_until_removed_trace env self ids kwargs tr :
  waiter_answer env tr (Clouddeployment.region_name self)
    "instance_terminated" ids None = Ok tt ->
  snd (Clouddeployment.wait_until_removed env self ids kwargs tr)
  = (tr ++ [WaiterWait (Clouddeployment.region_name self)
              "instance_terminated" ids None;
            WaiterWait (Clouddeployment.region_name self)
              "instance_terminated" ids
              (if decide (kwargs ≠ ∅) then Some kwargs else None)]).
Proof.
  intros Hfirst.
  unfold Clouddeployment.wait_until_removed, bind, waiter_wait, request.
  rewrite Hfirst.
  case_decide; simpl; by rewrite <- app_assoc.
Qed.

(** [wait_until_ready] sends one wait. *)
Lemma wait_until_ready_trace env self ids kwargs tr :
  snd (Clouddeployment.wait_until_ready env self ids kwargs tr)
  = (tr ++ [WaiterWait (Clouddeployment.region_name self)
              "instance_running" ids
              (if decide (kwargs ≠ ∅) then Some kwargs else None)]).
Proof.
  unfold Clouddeployment.wait_until_ready, waiter_wait, request.
  by case_decide.
Qed.

(** C2 on the code: with poll options [MaxAttempts=5], both
    [wait_until_removed] send a wait with the default configuration before
    the configured one, where [wait_until_ready] sends the configured wait
    alone. *)
Theorem wait_until_removed_waits_twice :
  Clouddeployment.wait_until_removed ec2_always_ok
    (to_clouddeployment sample_interface) ["i-0001"] sample_poll_options []
  = (Ok tt,
     [WaiterWait "us-east-1" "instance_terminated" ["i-0001"] None;
      WaiterWait "us-east-1" "instance_terminated" ["i-0001"]
        (Some sample_poll_options)])
  /\ Interface.wait_until_removed ec2_always_ok sample_interface ["i-0001"]
       sample_poll_options []
     = (Ok tt,
        [WaiterWait "us-east-1" "instance_terminated" ["i-0001"] None;
         WaiterWait "us-east-1" "instance_terminated" ["i-0001"]
           (Some sample_poll_options)])
  /\ Clouddeployment.wait_until_ready ec2_always_ok
       (to_clouddeployment sample_interface) ["i-0001"] sample_poll_options []
     = (Ok tt,
        [WaiterWait "us-east-1" "instance_running" ["i-0001"]
           (Some sample_poll_options)]).
Proof. repeat split; vm_compute; reflexivity. Qed.

End Waiters.

(** ** The two provider modules *)
Section TwoModules.
Import Template TemplateFacts.

Lemma userDataParams_agree (self : Interface.AWS) (id : string) :
  id ≠ "runner_release" -> id ≠ "runnerRelease" ->
  Interface.userDataParams self !! id
  = Clouddeployment.userDataParams (to_clouddeployment self) !! id.
Proof.
  intros H1 H2.
  unfold Interface.userDataParams, Clouddeployment.userDataParams.
  simpl. rewrite !lookup_insert.
  repeat case_decide; subst; done.
Qed.

Lemma build_user_data_agree template (self : Interface.AWS) :
  "runner_release" ∉ get_identifiers template ->
  "runnerRelease" ∉ get_identifiers template ->
  Interface.build_user_data template (Interface.userDataParams self)
  = Clouddeployment.build_user_data template
      (Clouddeployment.userDataParams (to_clouddeployment self)).
Proof.
  intros H1 H2.
  unfold Interface.build_user_data, Clouddeployment.build_user_data.
  f_equal. apply substitute_agree. intros id Hid.
  apply userDataParams_agree; intros ->; contradiction.
Qed.

Lemma userDataParams_corresponding (self : Interface.AWS) (id : string) :
  id ≠ "runner_release" ->
  Interface.userDataParams self !! id
  = Clouddeployment.userDataParams (to_clouddeployment self)
      !! clouddeployment_placeholder id.
Proof.
  intros Hid. unfold clouddeployment_placeholder.
  case_decide as Hrelease.
  - subst id. reflexivity.
  - by apply userDataParams_agree.
Qed.

Lemma convert_corresponding template_i template_c (self : Interface.AWS)
    (id : string) (named : string -> group) :
  (named = Named \/ named = Braced) ->
  id ≠ "runner_release" ->
  convert template_i (Interface.userDataParams self) (named id)
  = convert template_c
      (Clouddeployment.userDataParams (to_clouddeployment self))
      (named (clouddeployment_placeholder id)).
Proof.
  intros Hnamed Hid.
  assert (match Interface.userDataParams self !! id with
          | Some v => Ok v
          | None => Raise (mk_exception KeyError (repr_key id))
          end
          = match Clouddeployment.userDataParams (to_clouddeployment self)
                    !! clouddeployment_placeholder id with
            | Some v => Ok v
            | None =>
                Raise (mk_exception KeyError
                         (repr_key (clouddeployment_placeholder id)))
            end) as Hconvert.
  { rewrite <- (userDataParams_corresponding self id Hid).
    destruct (Interface.userDataParams self !! id) eqn:Hlookup;
      [reflexivity|].
    unfold clouddeployment_placeholder. case_decide as Hrelease; [|done].
    subst id. discriminate. }
  by destruct Hnamed as [-> | ->].
Qed.

(** With well-formed delimiters, corresponding pieces are substituted
    alike, errors included. *)
Lemma sub_corresponding template_i template_c (self : Interface.AWS)
    (ps : list piece) : forall qs,
  corresponding_pieces ps qs = true ->
  (forall i, Match (Invalid i) ∉ ps) ->
  sub template_i (Interface.userDataParams self) ps
  = sub template_c
      (Clouddeployment.userDataParams (to_clouddeployment self)) qs.
Proof.
  induction ps as [|p ps IH]; intros [|q qs] Hcorr Hvalid;
    try discriminate; [reflexivity|].
  simpl in Hcorr. apply andb_true_iff in Hcorr as [Hp Hrest].
  assert (Hvalid' : forall i, Match (Invalid i) ∉ ps).
  { intros i Hin. apply (Hvalid i). by apply list_elem_of_further. }
  specialize (IH qs Hrest Hvalid').
  destruct p as [c|[|a|a|i]], q as [d|[|b|b|k]]; try discriminate.
  - apply bool_decide_eq_true in Hp as <-. simpl. by rewrite IH.
  - simpl. by rewrite IH.
  - apply andb_true_iff in Hp as [Ha Hb].
    apply bool_decide_eq_true in Ha, Hb. subst b.
    cbn [sub].
    rewrite (convert_corresponding template_i template_c self a Named)
      by auto.
    by rewrite IH.
  - apply andb_true_iff in Hp as [Ha Hb].
    apply bool_decide_eq_true in Ha, Hb. subst b.
    cbn [sub].
    rewrite (convert_corresponding template_i template_c self a Braced)
      by auto.
    by rewrite IH.
  - destruct (Hvalid i). apply list_elem_of_here.
Qed.

(** In any case, corresponding pieces are substituted alike or fail on
    both sides. *)
Lemma sub_corresponding_or_fail template_i template_c
    (self : Interface.AWS) (ps : list piece) : forall qs,
  corresponding_pieces ps qs = true ->
  sub template_i (Interface.userDataParams self) ps
  = sub template_c
      (Clouddeployment.userDataParams (to_clouddeployment self)) qs
  \/ exists e_i e_c,
       sub template_i (Interface.userDataParams self) ps = Raise e_i
       /\ sub template_c
            (Clouddeployment.userDataParams (to_clouddeployment self)) qs
          = Raise e_c.
Proof.
  induction ps as [|p ps IH]; intros [|q qs] Hcorr;
    try discriminate; [by left|].
  simpl in Hcorr. apply andb_true_iff in Hcorr as [Hp Hrest].
  specialize (IH qs Hrest).
  assert (Hstep : forall (r_i r_c : result string)
                         (k : string -> string -> string),
             r_i = r_c ->
             match r_i with
             | Ok v =>
                 match sub template_i (Interface.userDataParams self) ps with
                 | Ok s => Ok (k v s)
                 | Raise e => Raise e
                 end
             | Raise e => Raise e
             end
             = match r_c with
               | Ok v =>
                   match sub template_c
                           (Clouddeployment.userDataParams
                              (to_clouddeployment self)) qs with
                   | Ok s => Ok (k v s)
                   | Raise e => Raise e
                   end
               | Raise e => Raise e
               end
             \/ exists e_i e_c,
                  match r_i with
                  | Ok v =>
                      match sub template_i (Interface.userDataParams self)
                              ps with
                      | Ok s => Ok (k v s)
                      | Raise e => Raise e
                      end
                  | Raise e => Raise e
                  end = Raise e_i
                  /\ match r_c with
                     | Ok v =>
                         match sub template_c
                                 (Clouddeployment.userDataParams
                                    (to_clouddeployment self)) qs with
                         | Ok s => Ok (k v s)
                         | Raise e => Raise e
                         end
                     | Raise e => Raise e
                     end = Raise e_c).
  { intros r_i r_c k <-. destruct r_i as [v|e]; [|by left].
    destruct IH as [-> | (e_i & e_c & -> & ->)]; [by left|right; eauto]. }
  destruct p as [c|[|a|a|i]], q as [d|[|b|b|k]]; try discriminate.
  - apply bool_decide_eq_true in Hp as <-.
    exact (Hstep (Ok "") (Ok "") (fun _ s => String c s) eq_refl).
  - exact (Hstep (Ok "$") (Ok "$") (fun v s => v +:+ s) eq_refl).
  - apply andb_true_iff in Hp as [Ha Hb].
    apply bool_decide_eq_true in Ha, Hb. subst b.
    apply (Hstep _ _ (fun v s => v +:+ s)).
    by apply (convert_corresponding template_i template_c self a Named);
      auto.
  - apply andb_true_iff in Hp as [Ha Hb].
    apply bool_decide_eq_true in Ha, Hb. subst b.
    apply (Hstep _ _ (fun v s => v +:+ s)).
    by apply (convert_corresponding template_i template_c self a Braced);
      auto.
  - right. simpl. eauto.
Qed.

(** C7, as the code has it.  The two modules build the request from the
    same fields, but each reads its own template file, and the substitution
    of [interface.py] has the key [runnerRelease] where that of
    [clouddeployment.py] has [runner_release].  When the template of
    [clouddeployment.py] is the template of [interface.py] with
    [runnerRelease] written [runner_release], the two [create_instance] are
    the same program on corresponding configurations (same request, same
    result, same error) if every delimiter is well formed; with an
    ill-formed delimiter they are the same program or both raise the
    template error and send nothing.  When both read one template text that
    names neither key, they are the same program.  When both read one
    template text that names [runner_release], [interface.py] raises the
    template error and sends nothing; with one that names [runnerRelease],
    [clouddeployment.py] does. *)
Theorem create_instance_agree :
  (forall interface_template clouddeployment_template,
      corresponding_templates interface_template clouddeployment_template
      = true ->
      forall env self count tr,
        ((forall i, Match (Invalid i) ∉ pieces interface_template) ->
         Interface.create_instance env interface_template self count tr
         = Clouddeployment.create_instance env clouddeployment_template
             (to_clouddeployment self) count tr)
        /\ (Interface.create_instance env interface_template self count tr
            = Clouddeployment.create_instance env clouddeployment_template
                (to_clouddeployment self) count tr
            \/ exists e_i e_c,
                 Interface.create_instance env interface_template self count
                   tr = (Raise e_i, tr)
                 /\ Clouddeployment.create_instance env
                      clouddeployment_template (to_clouddeployment self)
                      count tr = (Raise e_c, tr)
                 /\ exc_type e_i = Exception
                 /\ exc_type e_c = Exception))
  /\ (forall template,
         "runner_release" ∉ get_identifiers template ->
         "runnerRelease" ∉ get_identifiers template ->
         forall env self count tr,
           Interface.create_instance env template self count tr
           = Clouddeployment.create_instance env template
               (to_clouddeployment self) count tr)
  /\ (forall template,
         "runner_release" ∈ get_identifiers template ->
         forall env self count tr,
         exists e,
           Interface.create_instance env template self count tr
           = (Raise e, tr)
           /\ exc_type e = Exception)
  /\ (forall template,
         "runnerRelease" ∈ get_identifiers template ->
         forall env self count tr,
         exists e,
           Clouddeployment.create_instance env template self count tr
           = (Raise e, tr)
           /\ exc_type e = Exception).
Proof.
  split; [|split; [|split]].
  - intros template_i template_c Hcorr env self count tr.
    unfold corresponding_templates in Hcorr.
    unfold Interface.create_instance, Clouddeployment.create_instance,
      Clouddeployment.build_aws_params, Interface.build_user_data,
      Clouddeployment.build_user_data, substitute, bind, lift, try_except.
    split.
    + intros Hvalid.
      rewrite (sub_corresponding template_i template_c self
                 (pieces template_i) (pieces template_c) Hcorr Hvalid).
      by destruct (sub template_c _ (pieces template_c)).
    + destruct (sub_corresponding_or_fail template_i template_c self
                  (pieces template_i) (pieces template_c) Hcorr)
        as [-> | (e_i & e_c & -> & ->)].
      * left. by destruct (sub template_c _ (pieces template_c)).
      * right. by eexists _, _.
  - intros template H1 H2 env self count tr.
    unfold Interface.create_instance, Clouddeployment.create_instance,
      Clouddeployment.build_aws_params, bind, lift.
    rewrite (build_user_data_agree template self H1 H2).
    by destruct (Clouddeployment.build_user_data _ _).
  - intros template Hin env self count tr.
    destruct (sub_missing template (Interface.userDataParams self)
                (pieces template) "runner_release" Hin) as [cause Hcause].
    { by vm_compute. }
    eexists. split.
    + unfold Interface.create_instance, Interface.build_user_data,
        substitute, bind, lift.
      rewrite Hcause. reflexivity.
    + reflexivity.
  - intros template Hin env self count tr.
    destruct (sub_missing template (Clouddeployment.userDataParams self)
                (pieces template) "runnerRelease" Hin) as [cause Hcause].
    { unfold Clouddeployment.userDataParams. by simplify_map_eq. }
    eexists. split.
    + unfold Clouddeployment.create_instance,
        Clouddeployment.build_aws_params, Clouddeployment.build_user_data,
        substitute, bind, lift.
      rewrite Hcause. reflexivity.
    + reflexivity.
Qed.

(** Each module with a template that names the runner release by its own
    key. *)
Lemma create_instance_agree_witness :
  Interface.create_instance ec2_always_ok "fetch $runnerRelease"
    sample_interface 2 []
  = Clouddeployment.create_instance ec2_always_ok "fetch $runner_release"
      (to_clouddeployment sample_interface) 2 [].
Proof.
  destruct create_instance_agree as (H & _).
  apply (H "fetch $runnerRelease" "fetch $runner_release").
  - vm_compute. reflexivity.
  - intros i Hin. vm_compute in Hin.
    repeat (apply elem_of_cons in Hin as [Hin|Hin]; [discriminate|]).
    inversion Hin.
Defined.

(** C7 as stated fails: with the text [fetch $runner_release] in both
    template files and corresponding configurations, [clouddeployment.py]
    sends a request and returns the instance ids, [interface.py] raises and
    sends nothing. *)
Lemma create_instance_differ :
  fst (Clouddeployment.create_instance ec2_always_ok "fetch $runner_release"
         (to_clouddeployment sample_interface) 2 [])
  = Ok ["i-0001"]
  /\ length (snd (Clouddeployment.create_instance ec2_always_ok
                    "fetch $runner_release"
                    (to_clouddeployment sample_interface) 2 [])) = 1
  /\ Interface.create_instance ec2_always_ok "fetch $runner_release"
       sample_interface 2 []
     = (Raise (mk_exception Exception
                 "Error parsing user data template: 'runner_release'"),
        []).
Proof. repeat split; vm_compute; reflexivity. Qed.

End TwoModules.

(** ** Looking runners up and removing them *)

Section Runners.
Import Gh.

Variable env : github_env.
Variable self : GitHubInstance.

Lemma get_runner_run label tr :
  get_runner env self label tr
  = (match get_self_hosted_runners_answer env tr (repo self) with
     | Ok runners => Ok (head (filter (has_label label) runners))
     | Raise e => Raise e
     end,
     (tr ++ [GetSelfHostedRunners (repo self)])).
Proof.
  unfold get_runner, bind, get_self_hosted_runners, request, ret.
  destruct (get_self_hosted_runners_answer env tr (repo self)) as [rs|e];
    [|reflexivity].
  by destruct (filter (has_label label) rs).
Qed.

Lemma get_runners_run label tr :
  get_runners env self label tr
  = (match get_self_hosted_runners_answer env tr (repo self) with
     | Ok runners =>
         Ok (match filter (has_label label) runners with
             | [] => None
             | matched => Some matched
             end)
     | Raise e => Raise e
     end,
     (tr ++ [GetSelfHostedRunners (repo self)])).
Proof.
  unfold get_runners, bind, get_self_hosted_runners, request, ret.
  destruct (get_self_hosted_runners_answer env tr (repo self)) as [rs|e];
    [|reflexivity].
  by destruct (filter (has_label label) rs).
Qed.

Lemma filter_has_label_nil label (runners : list runner) :
  Forall (fun r => ~ has_label label r) runners ->
  filter (has_label label) runners = [].
Proof.
  induction 1 as [|r rs Hr _ IH]; [reflexivity|].
  rewrite filter_cons. by destruct (decide (has_label label r)).
Qed.

(** The first match of the filter is the first runner of the listing that
    carries the label. *)
Lemma filter_has_label_first label (pre post : list runner) (r : runner) :
  Forall (fun r' => ~ has_label label r') pre -> has_label label r ->
  filter (has_label label) (pre ++ r :: post)
  = r :: filter (has_label label) post.
Proof.
  intros Hpre Hr. rewrite filter_app, (filter_has_label_nil _ _ Hpre).
  simpl. rewrite filter_cons. by destruct (decide (has_label label r)).
Qed.

Lemma filter_has_label_cons_inv label (runners : list runner) r matched :
  filter (has_label label) runners = r :: matched ->
  exists pre post,
    runners = (pre ++ r :: post)
    /\ Forall (fun r' => ~ has_label label r') pre
    /\ has_label label r
    /\ matched = filter (has_label label) post.
Proof.
  induction runners as [|x rs IH]; [discriminate|].
  rewrite filter_cons. destruct (decide (has_label label x)) as [Hx|Hx].
  - intros [= -> <-]. exists [], rs. by repeat split.
  - intros Hf. destruct (IH Hf) as (pre & post & -> & Hpre & Hr & Hm).
    exists (x :: pre), post. repeat split; try done. by constructor.
Qed.

(** C6.  When the listing returns runners none of which carries the label,
    [get_runner] and [get_runners] both return [None]; they do not
    raise. *)
Theorem get_runner_absent (label : string) (tr : list gh_request)
    (runners : list runner) :
  get_self_hosted_runners_answer env tr (repo self) = Ok runners ->
  Forall (fun r => label ∉ map label_name (labels r)) runners ->
  fst (get_runner env self label tr) = Ok None
  /\ fst (get_runners env self label tr) = Ok None.
Proof.
  intros Hlist Hnone.
  rewrite get_runner_run, get_runners_run, Hlist. simpl.
  by rewrite (filter_has_label_nil label runners Hnone).
Qed.

(** C10.  [get_runner] returns the head of what [get_runners] returns, and
    [None] when [get_runners] does; when the listing returns [runners],
    that head is the first runner of [runners], in listing order, that
    carries the label. *)
Theorem get_runner_is_first_of_get_runners (label : string)
    (tr : list gh_request) :
  fst (get_runner env self label tr)
  = match fst (get_runners env self label tr) with
    | Ok (Some matched) => Ok (head matched)
    | Ok None => Ok None
    | Raise e => Raise e
    end
  /\ snd (get_runner env self label tr) = snd (get_runners env self label tr)
  /\ (forall runners,
         get_self_hosted_runners_answer env tr (repo self) = Ok runners ->
         (Forall (fun r => label ∉ map label_name (labels r)) runners ->
          fst (get_runner env self label tr) = Ok None
          /\ fst (get_runners env self label tr) = Ok None)
         /\ (forall pre r post,
                runners = (pre ++ r :: post) ->
                Forall (fun r' => label ∉ map label_name (labels r')) pre ->
                label ∈ map label_name (labels r) ->
                fst (get_runner env self label tr) = Ok (Some r)
                /\ fst (get_runners env self label tr)
                   = Ok (Some (r :: filter (has_label label) post)))).
Proof.
  rewrite get_runner_run, get_runners_run. simpl.
  split; [|split; [reflexivity|]].
  - destruct (get_self_hosted_runners_answer env tr (repo self)) as [rs|e];
      [|reflexivity].
    by destruct (filter (has_label label) rs).
  - intros runners ->. split.
    + intros Hnone. by rewrite (filter_has_label_nil label runners Hnone).
    + intros pre r post -> Hpre Hr.
      by rewrite (filter_has_label_first label pre post r Hpre Hr).
Qed.

(** C5.  With the listing returning [runners]: no runner with the label,
    [MissingRunnerLabel]; the first runner with the label removed, a plain
    return; its removal reported as failed, [RuntimeError].  A plain return
    means that a runner with the label was found and that the service
    reported its removal as done. *)
Theorem remove_runner_outcomes (label : string) (tr : list gh_request)
    (runners : list runner) :
  get_self_hosted_runners_answer env tr (repo self) = Ok runners ->
  let tr1 := (tr ++ [GetSelfHostedRunners (repo self)]) in
  (Forall (fun r => label ∉ map label_name (labels r)) runners ->
   remove_runner env self label tr
   = (Raise (mk_exception MissingRunnerLabel
               ("Runner " +:+ label +:+ " not found")), tr1))
  /\ (forall pre r post,
         runners = (pre ++ r :: post) ->
         Forall (fun r' => label ∉ map label_name (labels r')) pre ->
         label ∈ map label_name (labels r) ->
         let tr2 := (tr1 ++ [RemoveSelfHostedRunner (repo self) r]) in
         (remove_self_hosted_runner_answer env tr1 (repo self) r = Ok true ->
          remove_runner env self label tr = (Ok tt, tr2))
         /\ (remove_self_hosted_runner_answer env tr1 (repo self) r
             = Ok false ->
             remove_runner env self label tr
             = (Raise (mk_exception RuntimeError
                         ("Error removing runner " +:+ label)), tr2)))
  /\ (forall tr',
         remove_runner env self label tr = (Ok tt, tr') ->
         exists pre r post,
           runners = (pre ++ r :: post)
           /\ Forall (fun r' => label ∉ map label_name (labels r')) pre
           /\ label ∈ map label_name (labels r)
           /\ remove_self_hosted_runner_answer env tr1 (repo self) r
              = Ok true
           /\ tr' = (tr1 ++ [RemoveSelfHostedRunner (repo self) r])).
Proof.
  intros Hlist tr1.
  unfold remove_runner, bind. rewrite get_runner_run, Hlist.
  split; [|split].
  - intros Hnone. by rewrite (filter_has_label_nil label runners Hnone).
  - intros pre r post -> Hpre Hr. cbv zeta.
    rewrite (filter_has_label_first label pre post r Hpre Hr). simpl.
    unfold remove_self_hosted_runner, request. fold tr1.
    split; intros ->; reflexivity.
  - intros tr'.
    destruct (filter (has_label label) runners) as [|r matched] eqn:Hf;
      simpl; [discriminate|].
    destruct (filter_has_label_cons_inv label runners r matched Hf)
      as (pre & post & -> & Hpre & Hr & _).
    unfold remove_self_hosted_runner, request, raise, ret. fold tr1.
    destruct (remove_self_hosted_runner_answer env tr1 (repo self) r)
      as [[|]|e] eqn:Hrem; simpl; intros [= <-].
    by exists pre, r, post.
Qed.

(** [remove_runners] follows the same pattern over every runner with the
    label: a plain return means that each of them was sent for removal, in
    listing order, and that each removal was reported as done. *)
Lemma remove_runners_loop_ok label (rs : list runner) : forall tr,
  fst (remove_runners_loop env self label rs tr) = Ok tt ->
  snd (remove_runners_loop env self label rs tr)
  = tr ++ map (RemoveSelfHostedRunner (repo self)) rs
  /\ (forall k r,
         rs !! k = Some r ->
         remove_self_hosted_runner_answer env
           (tr ++ map (RemoveSelfHostedRunner (repo self)) (take k rs))
           (repo self) r = Ok true).
Proof.
  induction rs as [|r rs IH]; intros tr; simpl.
  - intros _. split; [by rewrite app_nil_r|]. intros k r Hk. done.
  - unfold bind, remove_self_hosted_runner, request.
    destruct (remove_self_hosted_runner_answer env tr (repo self) r)
      as [[|]|e] eqn:Hr; simpl; try discriminate.
    intros Hok. destruct (IH _ Hok) as [Htr Hall]. split.
    + rewrite Htr. by rewrite <- app_assoc.
    + intros [|k] r' Hk; simpl in *.
      * injection Hk as <-. by rewrite app_nil_r.
      * specialize (Hall k r' Hk). by rewrite <- app_assoc in Hall.
Qed.

Lemma remove_runners_absent label tr (runners : list runner) :
  get_self_hosted_runners_answer env tr (repo self) = Ok runners ->
  Forall (fun r => label ∉ map label_name (labels r)) runners ->
  remove_runners env self label tr
  = (Raise (mk_exception MissingRunnerLabel
              ("Runner " +:+ label +:+ " not found")),
     tr ++ [GetSelfHostedRunners (repo self)]).
Proof.
  intros Hlist Hnone. unfold remove_runners, bind.
  rewrite get_runners_run, Hlist.
  by rewrite (filter_has_label_nil label runners Hnone).
Qed.

End Runners.

Section RunnersWitness.
Import Gh.

Lemma get_runner_absent_witness :
  fst (get_runner sample_github_env sample_github "runner-zzzz9999" [])
  = Ok None
  /\ fst (get_runners sample_github_env sample_github "runner-zzzz9999" [])
     = Ok None.
Proof.
  apply (get_runner_absent sample_github_env sample_github
           "runner-zzzz9999" [] [runner_a; runner_b; runner_c]).
  - reflexivity.
  - compute_done.
Defined.

Lemma get_runner_is_first_of_get_runners_witness :
  fst (get_runner sample_github_env sample_github "runner-bbbb1111" [])
  = Ok (Some runner_b)
  /\ fst (get_runners sample_github_env sample_github "runner-bbbb1111" [])
     = Ok (Some [runner_b; runner_c]).
Proof.
  destruct (get_runner_is_first_of_get_runners sample_github_env
              sample_github "runner-bbbb1111" []) as (_ & _ & H).
  destruct (H [runner_a; runner_b; runner_c] eq_refl) as [_ Hfirst].
  apply (Hfirst [runner_a] runner_b [runner_c]).
  - reflexivity.
  - compute_done.
  - compute_done.
Defined.

Lemma remove_runner_outcomes_witness :
  remove_runner sample_github_env sample_github "runner-aaaa0000" []
  = (Ok tt,
     [GetSelfHostedRunners "owner/repo";
      RemoveSelfHostedRunner "owner/repo" runner_a]).
Proof.
  destruct (remove_runner_outcomes sample_github_env sample_github
              "runner-aaaa0000" [] [runner_a; runner_b; runner_c] eq_refl)
    as (_ & H & _).
  apply (H [] runner_a [runner_b; runner_c]).
  - reflexivity.
  - constructor.
  - compute_done.
  - reflexivity.
Defined.

End RunnersWitness.

(** ** Registration tokens *)
Section Tokens.
Import Gh.

Variable urljoin : string -> string -> string.
Variable env : github_env.
Variable self : GitHubInstance.

#[local] Abbreviation registration_token_url :=
  (registration_token_url urljoin self).
#[local] Abbreviation mint_request := (mint_request urljoin self).
#[local] Abbreviation tokens_outcome := (tokens_outcome urljoin env self).

Lemma create_runner_token_try_run tr :
  create_runner_token_try urljoin env self tr
  = (match post_answer env tr registration_token_url (headers self) ∅ with
     | Raise cause => Raise cause
     | Ok resp =>
         if negb (ok resp)
         then Raise (mk_exception RuntimeError
                       ("Error in API call for " +:+ registration_token_url
                        +:+ ": " +:+ repr_bytes (content resp)))
         else match json resp with
              | Ok res => getitem res "token"
              | Raise cause => Raise cause
              end
     end,
     tr ++ [mint_request]).
Proof.
  unfold create_runner_token_try, post, _do_request, requests_post, request,
    bind, lift, raise.
  fold registration_token_url. fold mint_request.
  destruct (post_answer env tr registration_token_url (headers self) ∅)
    as [resp|cause]; [|reflexivity].
  destruct (ok resp); simpl; [|reflexivity].
  by destruct (json resp).
Qed.

Lemma create_runner_token_run tr :
  create_runner_token urljoin env self tr
  = (match fst (create_runner_token_try urljoin env self tr) with
     | Ok token => Ok token
     | Raise cause => Raise (token_retrieval_error cause)
     end,
     tr ++ [mint_request]).
Proof.
  unfold create_runner_token, catch.
  rewrite create_runner_token_try_run. simpl.
  by destruct (match post_answer env tr registration_token_url
                       (headers self) ∅ with
               | Ok _ => _ | Raise _ => _ end).
Qed.

Lemma create_runner_tokens_loop_outcome n : forall tokens0 tr,
  tokens_outcome n tokens0 tr
    (create_runner_tokens_loop urljoin env self n tokens0 tr).
Proof.
  induction n as [|n IH]; intros tokens0 tr; simpl.
  - exists []. by rewrite !app_nil_r.
  - unfold bind. rewrite create_runner_token_run.
    destruct (fst (create_runner_token_try urljoin env self tr))
      as [token|cause] eqn:Htry.
    + specialize (IH (tokens0 ++ [token]) (tr ++ [mint_request])).
      destruct (create_runner_tokens_loop urljoin env self n
                  (tokens0 ++ [token]) (tr ++ [mint_request]))
        as [[tokens|e] tr'].
      * destruct IH as (new & -> & Hlen & ->).
        exists (token :: new). rewrite <- !app_assoc. simpl.
        by rewrite Hlen.
      * destruct IH as (k & cause & Hk & -> & Hcause & ->).
        exists (S k), cause. rewrite <- !app_assoc in *. simpl in *.
        repeat split; [lia|done].
    + exists 0%nat, cause. simpl. rewrite app_nil_r.
      repeat split; [lia|done].
Qed.

(** C8.  For [count >= 0]: a returned list has [count] tokens and [count]
    minting requests were sent, one per token; an error is
    [TokenRetrievalError] with the text of what the failing minting raised,
    and comes after at most [count] requests; a transport error and a
    non-success response both surface so; and the list is returned whenever
    every minting succeeds. *)
Theorem create_runner_tokens_counts (count : Z) (tr : list gh_request) :
  (0 <= count)%Z ->
  match create_runner_tokens urljoin env self count tr with
  | (Ok tokens, tr') =>
      Z.of_nat (length tokens) = count
      /\ tr' = tr ++ repeat mint_request (Z.to_nat count)
  | (Raise e, tr') =>
      exc_type e = TokenRetrievalError
      /\ exists k cause,
           (Z.of_nat k < count)%Z
           /\ tr' = tr ++ repeat mint_request (S k)
           /\ fst (create_runner_token_try urljoin env self
                     (tr ++ repeat mint_request k)) = Raise cause
           /\ exc_str e = "Error creating runner token: " +:+ exc_str cause
  end
  /\ ((forall k, (Z.of_nat k < count)%Z ->
         is_ok (fst (create_runner_token_try urljoin env self
                       (tr ++ repeat mint_request k))) = true) ->
      is_ok (fst (create_runner_tokens urljoin env self count tr)) = true)
  /\ (forall tr0 cause,
         post_answer env tr0 registration_token_url (headers self) ∅
         = Raise cause ->
         create_runner_token urljoin env self tr0
         = (Raise (token_retrieval_error cause), tr0 ++ [mint_request]))
  /\ (forall tr0 resp,
         post_answer env tr0 registration_token_url (headers self) ∅
         = Ok resp ->
         ok resp = false ->
         exists cause,
           exc_type cause = RuntimeError
           /\ create_runner_token urljoin env self tr0
              = (Raise (token_retrieval_error cause),
                 tr0 ++ [mint_request])).
Proof.
  intros Hcount.
  pose proof (create_runner_tokens_loop_outcome (Z.to_nat count) [] tr)
    as Hout.
  unfold create_runner_tokens.
  destruct (create_runner_tokens_loop urljoin env self (Z.to_nat count) [] tr)
    as [[tokens|e] tr'] eqn:Hloop; simpl in Hout.
  - destruct Hout as (new & -> & Hlen & ->).
    repeat split; simpl; try lia; try done.
    + intros tr0 cause Hpost.
      rewrite create_runner_token_run, create_runner_token_try_run, Hpost.
      reflexivity.
    + intros tr0 resp Hpost Hok. eexists. split; [|
        rewrite create_runner_token_run, create_runner_token_try_run,
          Hpost, Hok; reflexivity]. reflexivity.
  - destruct Hout as (k & cause & Hk & -> & Hcause & ->).
    repeat split; simpl; try done.
    + exists k, cause. repeat split; [lia|done..].
    + intros Hall. specialize (Hall k ltac:(lia)).
      by rewrite Hcause in Hall.
    + intros tr0 cause0 Hpost.
      rewrite create_runner_token_run, create_runner_token_try_run, Hpost.
      reflexivity.
    + intros tr0 resp Hpost Hok. eexists. split; [|
        rewrite create_runner_token_run, create_runner_token_try_run,
          Hpost, Hok; reflexivity]. reflexivity.
Qed.

End Tokens.

Section TokensWitness.
Import Gh.

(** Two tokens asked of a service that mints two. *)
Lemma create_runner_tokens_counts_witness :
  is_ok (fst (create_runner_tokens sample_urljoin sample_github_env
                sample_github 2 [])) = true.
Proof.
  pose proof (create_runner_tokens_counts sample_urljoin sample_github_env
                sample_github 2 [] ltac:(lia)) as (_ & H & _).
  apply H. intros k Hk.
  destruct k as [|[|k]]; [vm_compute; reflexivity..|lia].
Defined.

End TokensWitness.

(** ** Runner labels *)
Section RandomLabel.
Import Gh.

Variable rng : Type.
Variable randbelow : nat -> rng -> nat * rng.

(** [Random._randbelow(n)] is below [n]. *)
Hypothesis randbelow_lt :
  forall n g, (0 < n)%nat -> (fst (randbelow n g) < n)%nat.

Lemma choice_letters g :
  exists c,
    fst (choice rng randbelow (ascii_lowercase +:+ digits) g) = Some c
    /\ lower_or_digit c.
Proof.
  unfold choice.
  pose proof (randbelow_lt (String.length (ascii_lowercase +:+ digits)) g)
    as Hlt.
  destruct (randbelow (String.length (ascii_lowercase +:+ digits)) g)
    as [i g'].
  simpl in Hlt. specialize (Hlt ltac:(lia)).
  do 36 (destruct i as [|i];
         [eexists; split; [reflexivity|vm_compute; lia]|]).
  lia.
Qed.

Lemma join_choices_letters n : forall g,
  exists s,
    fst (join_choices rng randbelow (ascii_lowercase +:+ digits) n g)
    = Some s
    /\ String.length s = n
    /\ Forall lower_or_digit (list_ascii_of_string s).
Proof.
  induction n as [|n IH]; intros g.
  - exists "". by repeat split.
  - cbn [join_choices].
    destruct (choice_letters g) as (c & Hc & Hclass).
    destruct (choice rng randbelow (ascii_lowercase +:+ digits) g)
      as [oc g'].
    simpl in Hc. subst oc.
    destruct (IH g') as (s & Hs & Hlen & Hall).
    destruct (join_choices rng randbelow (ascii_lowercase +:+ digits) n g')
      as [os g''].
    simpl in Hs. subst os.
    exists (String c s). simpl. repeat split; [by rewrite Hlen|].
    by constructor.
Qed.

(** C9.  [generate_random_label] is a function of the state of the random
    generator and of nothing else; it returns ["runner-"] followed by eight
    characters, each a lowercase ASCII letter or a digit. *)
Theorem generate_random_label_format (g : rng) :
  exists suffix,
    fst (generate_random_label rng randbelow g) = Some ("runner-" +:+ suffix)
    /\ String.length suffix = 8%nat
    /\ Forall lower_or_digit (list_ascii_of_string suffix).
Proof.
  unfold generate_random_label.
  destruct (join_choices_letters 8 g) as (s & Hs & Hlen & Hall).
  destruct (join_choices rng randbelow (ascii_lowercase +:+ digits) 8 g)
    as [os g'].
  simpl in Hs. subst os.
  by exists s.
Qed.

End RandomLabel.

Section RandomLabelWitness.
Import Gh.

Lemma generate_random_label_format_witness :
  exists suffix,
    fst (generate_random_label nat sample_randbelow 5%nat)
    = Some ("runner-" +:+ suffix)
    /\ String.length suffix = 8%nat
    /\ Forall lower_or_digit (list_ascii_of_string suffix).
Proof.
  apply (generate_random_label_format nat sample_randbelow).
  intros n g Hn. simpl. apply Nat.mod_upper_bound. lia.
Defined.

Example generate_random_label_5 :
  fst (generate_random_label nat sample_randbelow 5%nat)
  = Some "runner-fcro30fc".
Proof. vm_compute. reflexivity. Qed.

End RandomLabelWitness.

(** ** The latest runner release *)

Section Release.
Import Gh TemplateFacts.

Lemma prefix_spec needle : forall hay,
  String.prefix needle hay = true <-> exists post, hay = needle +:+ post.
Proof.
  induction needle as [|c needle IH]; intros [|d hay]; simpl.
  - split; [intros _; by exists ""|done].
  - split; [intros _; by exists (String d hay)|done].
  - split; [done|intros [post Hpost]; discriminate].
  - destruct (ascii_dec c d) as [->|Hne].
    + rewrite IH.
      split; intros [post Hpost]; exists post;
        rewrite append_cons in *; congruence.
    + split; [done|].
      intros [post Hpost]. rewrite append_cons in Hpost. congruence.
Qed.

Lemma str_in_nil needle :
  str_in needle "" = String.prefix needle "" || false.
Proof. reflexivity. Qed.

Lemma str_in_cons needle c hay :
  str_in needle (String c hay)
  = String.prefix needle (String c hay) || str_in needle hay.
Proof. reflexivity. Qed.

Lemma str_in_contains needle hay :
  str_in needle hay = true <-> contains needle hay.
Proof.
  split.
  - induction hay as [|c hay IH]; intros H.
    + rewrite str_in_nil, orb_false_r in H.
      apply prefix_spec in H as [post Hpost]. exists "", post.
      by rewrite append_nil.
    + rewrite str_in_cons in H. apply orb_true_iff in H as [H|H].
      * apply prefix_spec in H as [post Hpost]. exists "", post.
        by rewrite append_nil.
      * destruct (IH H) as (pre & post & ->).
        by exists (String c pre), post.
  - intros (pre & post & ->).
    induction pre as [|c pre IH].
    + rewrite append_nil.
      assert (String.prefix needle (needle +:+ post) = true) as Hp
        by (apply prefix_spec; by exists post).
      destruct (needle +:+ post).
      * by rewrite str_in_nil, Hp.
      * by rewrite str_in_cons, Hp.
    + rewrite append_cons, str_in_cons, IH. apply orb_true_r.
Qed.

Lemma asset_matches_test platform architecture a :
  str_in platform (name a) && str_in architecture (name a) = true
  <-> asset_matches platform architecture a.
Proof.
  unfold asset_matches. by rewrite andb_true_iff, !str_in_contains.
Qed.

Lemma loop_first platform architecture pre a post :
  Forall (fun b => ~ asset_matches platform architecture b) pre ->
  asset_matches platform architecture a ->
  get_latest_runner_release_loop platform architecture (pre ++ a :: post)
  = Ok (browser_download_url a).
Proof.
  intros Hpre Ha. induction Hpre as [|b pre Hb _ IH]; simpl.
  - apply asset_matches_test in Ha. by rewrite Ha.
  - destruct (str_in platform (name b) && str_in architecture (name b))
      eqn:Hbt; [|exact IH].
    apply asset_matches_test in Hbt. contradiction.
Qed.

Lemma loop_none platform architecture assets :
  Forall (fun b => ~ asset_matches platform architecture b) assets ->
  get_latest_runner_release_loop platform architecture assets
  = Raise (not_found_error platform architecture).
Proof.
  induction 1 as [|b assets Hb _ IH]; simpl; [reflexivity|].
  destruct (str_in platform (name b) && str_in architecture (name b))
    eqn:Hbt; [|exact IH].
  apply asset_matches_test in Hbt. contradiction.
Qed.

(** C4, as the code has it.  When the listing returns [assets],
    [get_latest_runner_release] returns the download URL of the first
    asset, in listing order, whose name contains the platform and the
    architecture, and when no asset does it raises a [RuntimeError] saying
    that the runner was not found; an error of the listing itself is
    propagated unchanged.  [RuntimeError] is also the class of the error
    that the request adapter raises on a non-success response: the two
    errors differ in their message only. *)
Theorem get_latest_runner_release_first (env : github_env)
    (platform architecture : string) (tr : list gh_request) :
  (forall assets,
      get_assets_answer env tr "actions/runner" = Ok assets ->
      (forall pre a post,
          assets = pre ++ a :: post ->
          Forall (fun b => ~ asset_matches platform architecture b) pre ->
          asset_matches platform architecture a ->
          get_latest_runner_release env platform architecture tr
          = (Ok (browser_download_url a),
             tr ++ [GetLatestReleaseAssets "actions/runner"]))
      /\ (Forall (fun b => ~ asset_matches platform architecture b) assets ->
          get_latest_runner_release env platform architecture tr
          = (Raise (mk_exception RuntimeError
                      ("Runner not found for " +:+ platform +:+ " and "
                       +:+ architecture)),
             tr ++ [GetLatestReleaseAssets "actions/runner"])))
  /\ (forall e,
         get_assets_answer env tr "actions/runner" = Raise e ->
         get_latest_runner_release env platform architecture tr
         = (Raise e, tr ++ [GetLatestReleaseAssets "actions/runner"]))
  /\ (forall urljoin self func endpoint kwargs tr0 resp tr0',
         func (urljoin BASE_URL endpoint) (headers self) kwargs tr0
         = (Ok resp, tr0') ->
         ok resp = false ->
         exists e,
           _do_request urljoin self func endpoint kwargs tr0
           = (Raise e, tr0')
           /\ exc_type e = RuntimeError
           /\ exc_str e <> "Runner not found for " +:+ platform +:+ " and "
                           +:+ architecture).
Proof.
  unfold get_latest_runner_release, bind, get_assets, request, lift.
  split; [|split].
  - intros assets ->. split.
    + intros pre a post -> Hpre Ha. by rewrite loop_first.
    + intros Hnone. by rewrite loop_none.
  - by intros e ->.
  - intros urljoin self func endpoint kwargs tr0 resp tr0' Hfunc Hok.
    eexists. split; [|split].
    + unfold _do_request, bind. rewrite Hfunc, Hok. reflexivity.
    + reflexivity.
    + simpl. discriminate.
Qed.

End Release.

Section ReleaseWitness.
Import Gh.

Lemma get_latest_runner_release_first_witness :
  get_latest_runner_release sample_github_env "linux" "x64" []
  = (Ok "https://example.org/linux-x64",
     [GetLatestReleaseAssets "actions/runner"]).
Proof.
  destruct (get_latest_runner_release_first sample_github_env "linux" "x64"
              []) as (Hlist & _ & _).
  destruct (Hlist sample_assets eq_refl) as (H & _).
  apply (H [{| name := "actions-runner-osx-x64-2.300.0.tar.gz";
               browser_download_url := "https://example.org/osx-x64" |}]
           {| name := "actions-runner-linux-x64-2.300.0.tar.gz";
              browser_download_url := "https://example.org/linux-x64" |}
           [{| name := "actions-runner-linux-x64-2.300.0-noexternals.tar.gz";
               browser_download_url :=
                 "https://example.org/linux-x64-noext" |}]).
  - reflexivity.
  - constructor; [|constructor].
    intros Hm. apply asset_matches_test in Hm. vm_compute in Hm.
    discriminate.
  - apply asset_matches_test. vm_compute. reflexivity.
Defined.

(** C4 as stated fails: the error for no matching asset and the error of
    the request adapter for a 503 response are both [RuntimeError]. *)
Lemma not_found_has_the_class_of_the_adapter_error :
  fst (get_latest_runner_release sample_github_env "windows" "arm64" [])
  = Raise (mk_exception RuntimeError
             "Runner not found for windows and arm64")
  /\ fst (post sample_urljoin unavailable_github_env sample_github
            "repos/owner/repo/actions/runners/registration-token" ∅ [])
     = Raise (mk_exception RuntimeError
                ("Error in API call for https://api.github.com/repos/"
                 +:+ "owner/repo/actions/runners/registration-token: "
                 +:+ "b'Service Unavailable'"))
  /\ exc_type (mk_exception RuntimeError
                 "Runner not found for windows and arm64")
     = exc_type (mk_exception RuntimeError
                   ("Error in API call for https://api.github.com/repos/"
                    +:+ "owner/repo/actions/runners/registration-token: "
                    +:+ "b'Service Unavailable'")).
Proof. repeat split; vm_compute; reflexivity. Qed.

End ReleaseWitness.
